(** * Response normalisation of the document parser (src/app.py)

    A shallow embedding of [parse_ai_response] (src/app.py, lines 134-230),
    of the type dispatch of [render_element_content] (lines 232-285) and of
    the page grouping and the two download buttons of
    [display_parsed_content] (lines 287-395), with the properties the
    specification states about them.

    Python objects are modelled by the type [value] of decoded JSON data.
    The body of the [try] statement mutates the dictionary [result] in place
    and may raise; it is modelled in a state-and-exception monad whose state
    is that dictionary, so that the handler sees what was written before the
    exception. *)

From Stdlib Require Import ZArith String Ascii DecimalString.
From Stdlib Require Import Floats.SpecFloat.
From stdpp Require Import base option list strings gmap sorting.

Local Open Scope Z_scope.
Set Warnings "-register-all".

(** ** Python values *)

(** What [json.loads] produces: [None], [bool], [int], [float], [str],
    [list] and [dict] with string keys.  A dictionary keeps its insertion
    order, so it is an association list; a float is an IEEE 754 datum. *)
Inductive value : Type :=
| VNone
| VBool (b : bool)
| VInt (z : Z)
| VFloat (f : spec_float)
| VStr (s : string)
| VList (l : list value)
| VDict (d : list (string * value)).

Abbreviation dict := (list (string * value)).

(** The exceptions that occur in the modelled code. *)
Inductive exn : Type := JSONDecodeError | TypeError | AttributeError | IndexError.

Inductive outcome (A : Type) : Type :=
| Ok (a : A)
| Raise (e : exn).
Arguments Ok {A} a.
Arguments Raise {A} e.

#[global] Instance outcome_ret : MRet outcome := λ A a, Ok a.
#[global] Instance outcome_bind : MBind outcome := λ A B k m,
  match m with Ok a => k a | Raise e => Raise e end.

(** [k in d] *)
Fixpoint dict_mem (k : string) (d : dict) : bool :=
  match d with
  | [] => false
  | (k', _) :: d' => if String.eqb k k' then true else dict_mem k d'
  end.

(** [d[k]], when the key is there *)
Fixpoint dict_lookup (k : string) (d : dict) : option value :=
  match d with
  | [] => None
  | (k', v) :: d' => if String.eqb k k' then Some v else dict_lookup k d'
  end.

(** [d.get(k, default)]; [d.get(k)] is [dict_get k d VNone] *)
Definition dict_get (k : string) (d : dict) (default : value) : value :=
  match dict_lookup k d with Some v => v | None => default end.

(** [{k: v for k, v in d.items() if k != key}] *)
Definition dict_without (key : string) (d : dict) : dict :=
  List.filter (λ kv, negb (String.eqb (fst kv) key)) d.

(** [bool(v)], the truth value tested by [if v] and [not v] *)
Definition py_truthy (v : value) : bool :=
  match v with
  | VNone => false
  | VBool b => b
  | VInt z => negb (z =? 0)
  | VFloat f => match f with S754_zero _ => false | _ => true end
  | VStr s => negb (String.eqb s EmptyString)
  | VList l => match l with [] => false | _ => true end
  | VDict d => match d with [] => false | _ => true end
  end.

(** [c.lower()] on one ASCII character; [s.lower()].  Strings are byte
    strings here, and only the letters A-Z have a lower-case form. *)
Definition lower_ascii (c : ascii) : ascii :=
  let n := N_of_ascii c in
  if ((65 <=? n) && (n <=? 90))%N then ascii_of_N (n + 32) else c.

Fixpoint lower (s : string) : string :=
  match s with
  | EmptyString => EmptyString
  | String c s' => String (lower_ascii c) (lower s')
  end.

(** [v.lower()]: only a [str] has the method *)
Definition lower_method (v : value) : outcome string :=
  match v with
  | VStr s => Ok (lower s)
  | _ => Raise AttributeError
  end.

(** [v.get(k)]: only a [dict] has the method *)
Definition get_method (v : value) (k : string) : outcome value :=
  match v with
  | VDict d => Ok (dict_get k d VNone)
  | _ => Raise AttributeError
  end.

(** [l[0]] on a list *)
Definition list_item0 (l : list value) : outcome value :=
  match l with
  | x :: _ => Ok x
  | [] => Raise IndexError
  end.

(** The items that [for elem in v] visits: the entries of a list, the keys
    of a dictionary, the characters of a string; the other values are not
    iterable. *)
Definition py_iter (v : value) : outcome (list value) :=
  match v with
  | VList l => Ok l
  | VDict d => Ok (map (λ kv, VStr (fst kv)) d)
  | VStr s => Ok (map (λ c, VStr (String c EmptyString)) (list_ascii_of_string s))
  | _ => Raise TypeError
  end.

Definition newline : string := String "010"%char EmptyString.

Definition str_of_Z (z : Z) : string := NilZero.string_of_int (Z.to_int z).

(** ** The normalised document *)

(** A processed element, the dictionary built at lines 198-206. *)
Record element : Type := Element {
  type : string;
  content : value;
  description : value;
  id : value;
  page_id : value;
  bbox : value;
  raw : value
}.

(** The dictionary [result] of lines 139-148. *)
Record result : Type := Result {
  is_json : bool;
  elements : list element;
  raw_content : value;
  plain_text : string;
  tables : list element;
  figures : list element;
  headers : list element;
  metadata : dict
}.

Definition set_is_json (b : bool) (r : result) : result :=
  Result b (elements r) (raw_content r) (plain_text r)
         (tables r) (figures r) (headers r) (metadata r).
Definition set_plain_text (s : string) (r : result) : result :=
  Result (is_json r) (elements r) (raw_content r) s
         (tables r) (figures r) (headers r) (metadata r).
Definition set_metadata (m : dict) (r : result) : result :=
  Result (is_json r) (elements r) (raw_content r) (plain_text r)
         (tables r) (figures r) (headers r) m.
Definition append_elements (p : element) (r : result) : result :=
  Result (is_json r) (elements r ++ [p]) (raw_content r) (plain_text r)
         (tables r) (figures r) (headers r) (metadata r).
Definition append_tables (p : element) (r : result) : result :=
  Result (is_json r) (elements r) (raw_content r) (plain_text r)
         (tables r ++ [p]) (figures r) (headers r) (metadata r).
Definition append_figures (p : element) (r : result) : result :=
  Result (is_json r) (elements r) (raw_content r) (plain_text r)
         (tables r) (figures r ++ [p]) (headers r) (metadata r).
Definition append_headers (p : element) (r : result) : result :=
  Result (is_json r) (elements r) (raw_content r) (plain_text r)
         (tables r) (figures r) (headers r ++ [p]) (metadata r).

(** ** The monad of the [try] body *)

(** A computation reads and writes [result] and ends with a value or an
    exception; the writes made before an exception stay. *)
Definition M (A : Type) : Type := result → outcome A * result.

#[global] Instance M_ret : MRet M := λ A a st, (Ok a, st).
#[global] Instance M_bind : MBind M := λ A B k m st,
  match m st with
  | (Ok a, st') => k a st'
  | (Raise e, st') => (Raise e, st')
  end.

Definition modify (f : result → result) : M unit := λ st, (Ok tt, f st).
Definition lift {A} (o : outcome A) : M A := λ st, (o, st).

(** [x in [a, b, ...]] on strings *)
Definition str_in (x : string) (l : list string) : bool :=
  existsb (String.eqb x) l.

Definition table_types : list string := ["table"; "tables"].
Definition figure_types : list string :=
  ["figure"; "image"; "picture"; "chart"; "diagram"].
Definition header_types : list string :=
  ["header"; "page_header"; "title"; "heading"; "section_header"].

(** ** parse_ai_response *)

Section Normalizer.

(** Library functions the code calls and which are not part of the
    repository: [json.loads] on a string ([None] stands for
    [json.JSONDecodeError]), [repr] of a float and [repr] of a string. *)
Variable json_loads : string → option value.
Variable float_repr : spec_float → string.
Variable str_repr : string → string.

(** [repr(v)], and [str(v)], which differs from it on a string only. *)
Fixpoint py_repr (v : value) : string :=
  match v with
  | VNone => "None"
  | VBool b => if b then "True" else "False"
  | VInt z => str_of_Z z
  | VFloat f => float_repr f
  | VStr s => str_repr s
  | VList l => "[" +:+ String.concat ", " (map py_repr l) +:+ "]"
  | VDict d =>
      "{" +:+ String.concat ", "
                (map (λ kv, str_repr (fst kv) +:+ ": " +:+ py_repr (snd kv)) d)
          +:+ "}"
  end.

Definition py_str (v : value) : string :=
  match v with
  | VStr s => s
  | _ => py_repr v
  end.

(** Line 203, the default handed to [elem.get('page_id', ...)]:
    [elem.get('bbox', [{}])[0].get('page_id')
       if isinstance(elem.get('bbox'), list) else None].
    When the test holds the key is present, so [elem.get('bbox', [{}])]
    is the list just tested. *)
Definition bbox_page_id (elem : dict) : outcome value :=
  match dict_get "bbox" elem VNone with
  | VList l => first ← list_item0 l; get_method first "page_id"
  | _ => Ok VNone
  end.

(** Line 203 as a whole.  Python evaluates the default argument before the
    call, whether or not the key [page_id] is present. *)
Definition resolve_page_id (elem : dict) : outcome value :=
  default ← bbox_page_id elem;
  Ok (dict_get "page_id" elem default).

(** Lines 194-206: the dictionary [processed_elem].  Nothing is written to
    [result] here; [lower] and line 203 may raise. *)
Definition build_element (elem : dict) : outcome element :=
  elem_type ← lower_method (dict_get "type" elem (VStr "unknown"));
  let elem_content := dict_get "content" elem (VStr EmptyString) in
  let elem_description := dict_get "description" elem (VStr EmptyString) in
  pid ← resolve_page_id elem;
  Ok {| type := elem_type;
        content := elem_content;
        description := elem_description;
        id := dict_get "id" elem VNone;
        page_id := pid;
        bbox := dict_get "bbox" elem (dict_get "coord" elem VNone);
        raw := VDict elem |}.

(** Lines 210-216. *)
Definition categorize (processed_elem : element) : M unit :=
  let elem_type := type processed_elem in
  if str_in elem_type table_types then
    modify (append_tables processed_elem)
  else if str_in elem_type figure_types then
    modify (append_figures processed_elem)
  else if str_in elem_type header_types then
    modify (append_headers processed_elem)
  else mret tt.

(** Lines 218-222: what one element adds to [plain_text_parts]. *)
Definition text_part (processed_elem : element) : list string :=
  if py_truthy (content processed_elem) then
    [py_str (content processed_elem)]
  else if py_truthy (description processed_elem) then
    ["[" +:+ type processed_elem +:+ ": "
         +:+ py_str (description processed_elem) +:+ "]"]
  else [].

(** One turn of the loop of lines 190-222, from [plain_text_parts] to its
    next value. *)
Definition process_elem (elem : value) (plain_text_parts : list string)
  : M (list string) :=
  match elem with
  | VDict e =>
      processed_elem ← lift (build_element e);
      modify (append_elements processed_elem);;
      categorize processed_elem;;
      mret (plain_text_parts ++ text_part processed_elem)
  | _ => mret plain_text_parts
  end.

Fixpoint process_elems (elems : list value) (plain_text_parts : list string)
  : M (list string) :=
  match elems with
  | [] => mret plain_text_parts
  | elem :: rest =>
      parts ← process_elem elem plain_text_parts;
      process_elems rest parts
  end.

(** Lines 165-186: the value bound to the local [elements], with the
    writes to [result] of the branch taken.  The first test,
    ['document' in parsed and isinstance(parsed['document'], dict)], holds
    when the lookup of [document] finds a dictionary. *)
Definition select_structure (parsed : value) : M value :=
  match parsed with
  | VDict p =>
      match dict_lookup "document" p with
      | Some (VDict doc) =>
          modify (set_metadata (dict_without "elements" doc));;
          mret (dict_get "elements" doc (VList []))
      | _ =>
          if dict_mem "elements" p then
            modify (set_metadata (dict_without "elements" p));;
            mret (dict_get "elements" p (VList []))
          else if dict_mem "content" p then
            modify (set_plain_text
                      (py_str (dict_get "content" p (VStr EmptyString))));;
            mret (VList [])
          else if dict_mem "text" p then
            modify (set_plain_text
                      (py_str (dict_get "text" p (VStr EmptyString))));;
            mret (VList [])
          else
            modify (set_metadata p);;
            mret (VList [])
      end
  | VList _ => mret parsed
  | _ => mret (VList [])
  end.

(** Lines 156-160. *)
Definition decode (content : value) : outcome value :=
  match content with
  | VStr s =>
      match json_loads s with
      | Some parsed => Ok parsed
      | None => Raise JSONDecodeError
      end
  | _ => Ok content
  end.

(** Lines 154-224, the body of the [try]. *)
Definition try_body (content : value) : M unit :=
  parsed ← lift (decode content);
  modify (set_is_json true);;
  elems ← select_structure parsed;
  items ← lift (py_iter elems);
  plain_text_parts ← process_elems items [];
  modify (set_plain_text (String.concat (newline +:+ newline) plain_text_parts)).

(** Line 226: [except (json.JSONDecodeError, TypeError, AttributeError)]. *)
Definition caught (e : exn) : bool :=
  match e with
  | JSONDecodeError | TypeError | AttributeError => true
  | IndexError => false
  end.

(** Lines 139-148. *)
Definition initial_result (content : value) : result :=
  {| is_json := false;
     elements := [];
     raw_content := content;
     plain_text := EmptyString;
     tables := [];
     figures := [];
     headers := [];
     metadata := [] |}.

(** Lines 134-230.  [Raise e] is an exception that leaves the function. *)
Definition parse_ai_response (content : value) : outcome result :=
  let result0 := initial_result content in
  if negb (py_truthy content) then Ok result0
  else
    match try_body content result0 with
    | (Ok _, r) => Ok r
    | (Raise e, r) =>
        if caught e then Ok (set_plain_text (py_str content) r)
        else Raise e
    end.

End Normalizer.

(** ** A decoder to run the examples on JSON text *)

(** The theorems below hold for every [json_loads].  To evaluate the code on
    JSON text, the examples use this decoder of a fragment of JSON: objects,
    arrays, strings without escape sequences, integers, [true], [false] and
    [null].  Text outside the fragment is refused, and so is used in no
    example. *)
Module Json.

Definition is_ws (c : ascii) : bool :=
  let n := N_of_ascii c in
  ((n =? 32) || (n =? 9) || (n =? 10) || (n =? 13))%N.

Fixpoint skip_ws (s : list ascii) : list ascii :=
  match s with
  | c :: s' => if is_ws c then skip_ws s' else s
  | [] => []
  end.

Definition is_digit (c : ascii) : bool :=
  let n := N_of_ascii c in ((48 <=? n) && (n <=? 57))%N.

Definition digit_val (c : ascii) : Z := Z.of_N (N_of_ascii c) - 48.

(** The characters of a string up to its closing quote (code 34); a
    backslash (92) or a control character ends the fragment. *)
Fixpoint string_body (s : list ascii) : option (string * list ascii) :=
  match s with
  | [] => None
  | c :: s' =>
      let n := N_of_ascii c in
      if (n =? 34)%N then Some (EmptyString, s')
      else if ((n =? 92) || (n <? 32))%N then None
      else '(str, rest) ← string_body s'; Some (String c str, rest)
  end.

Fixpoint digits (acc : Z) (s : list ascii) : Z * list ascii :=
  match s with
  | c :: s' => if is_digit c then digits (10 * acc + digit_val c) s' else (acc, s)
  | [] => (acc, [])
  end.

(** An integer literal: no leading zero, no fraction, no exponent. *)
Definition number (s : list ascii) : option (value * list ascii) :=
  let '(neg, s1) :=
    match s with
    | c :: s' => if Ascii.eqb c "-" then (true, s') else (false, s)
    | [] => (false, s)
    end in
  match s1 with
  | c :: s2 =>
      if is_digit c then
        let '(z, rest) := digits 0 s1 in
        let leading_zero :=
          Ascii.eqb c "0" && match s2 with d :: _ => is_digit d | [] => false end in
        let more :=
          match rest with
          | d :: _ => Ascii.eqb d "." || Ascii.eqb d "e" || Ascii.eqb d "E"
          | [] => false
          end in
        if leading_zero || more then None
        else Some (VInt (if neg then - z else z), rest)
      else None
  | [] => None
  end.

Fixpoint literal (w : list ascii) (s : list ascii) : option (list ascii) :=
  match w, s with
  | [], _ => Some s
  | c :: w', d :: s' => if Ascii.eqb c d then literal w' s' else None
  | _ :: _, [] => None
  end.

(** [d[k] = v]: a key seen again keeps its place and takes the new value. *)
Fixpoint dict_set (k : string) (v : value) (d : dict) : dict :=
  match d with
  | [] => [(k, v)]
  | (k', v') :: d' =>
      if String.eqb k k' then (k', v) :: d' else (k', v') :: dict_set k v d'
  end.

Fixpoint parse_value (fuel : nat) (s : list ascii)
  : option (value * list ascii) :=
  match fuel with
  | O => None
  | S fuel' =>
      match skip_ws s with
      | c :: s1 =>
          if Ascii.eqb c "{" then
            match skip_ws s1 with
            | c2 :: s2 =>
                if Ascii.eqb c2 "}" then Some (VDict [], s2)
                else parse_members fuel' s1 []
            | [] => None
            end
          else if Ascii.eqb c "[" then
            match skip_ws s1 with
            | c2 :: s2 =>
                if Ascii.eqb c2 "]" then Some (VList [], s2)
                else parse_items fuel' s1 []
            | [] => None
            end
          else if (N_of_ascii c =? 34)%N then
            '(str, rest) ← string_body s1; Some (VStr str, rest)
          else if Ascii.eqb c "t" then
            rest ← literal (list_ascii_of_string "rue") s1; Some (VBool true, rest)
          else if Ascii.eqb c "f" then
            rest ← literal (list_ascii_of_string "alse") s1; Some (VBool false, rest)
          else if Ascii.eqb c "n" then
            rest ← literal (list_ascii_of_string "ull") s1; Some (VNone, rest)
          else number (c :: s1)
      | [] => None
      end
  end
with parse_items (fuel : nat) (s : list ascii) (acc : list value)
  : option (value * list ascii) :=
  match fuel with
  | O => None
  | S fuel' =>
      '(v, rest) ← parse_value fuel' s;
      match skip_ws rest with
      | c :: s1 =>
          if Ascii.eqb c "," then parse_items fuel' s1 (acc ++ [v])
          else if Ascii.eqb c "]" then Some (VList (acc ++ [v]), s1)
          else None
      | [] => None
      end
  end
with parse_members (fuel : nat) (s : list ascii) (acc : dict)
  : option (value * list ascii) :=
  match fuel with
  | O => None
  | S fuel' =>
      match skip_ws s with
      | q :: s0 =>
          if (N_of_ascii q =? 34)%N then
            '(k, s1) ← string_body s0;
            match skip_ws s1 with
            | c :: s2 =>
                if Ascii.eqb c ":" then
                  '(v, rest) ← parse_value fuel' s2;
                  match skip_ws rest with
                  | c3 :: s3 =>
                      if Ascii.eqb c3 "," then parse_members fuel' s3 (dict_set k v acc)
                      else if Ascii.eqb c3 "}" then Some (VDict (dict_set k v acc), s3)
                      else None
                  | [] => None
                  end
                else None
            | [] => None
            end
          else None
      | [] => None
      end
  end.

(** The whole text must be one JSON value. *)
Definition loads (s : string) : option value :=
  let cs := list_ascii_of_string s in
  '(v, rest) ← parse_value (S (length cs)) cs;
  match skip_ws rest with
  | [] => Some v
  | _ => None
  end.

(** [repr] of a string of printable ASCII characters with no quote and no
    backslash, and a stand-in for [repr] of a float: the examples hold no
    float. *)
Definition plain_str_repr (s : string) : string := "'" +:+ s +:+ "'".
Definition no_float_repr (f : spec_float) : string := EmptyString.

End Json.

(** ** Classification (render_element_content, lines 234-285) *)

(** The branches of the dispatch on the lower-cased type, which are the
    categories of the specification. *)
Inductive category : Type := Table | Figure | Header | Text | List | Footer | Other.

#[global] Instance category_eq_dec : EqDecision category.
Proof. solve_decision. Defined.

Definition text_types : list string := ["text"; "paragraph"; "body"].
Definition list_types : list string := ["list"; "list_item"; "bullet"].
Definition footer_types : list string := ["footer"; "page_footer"].

(** Lines 242-278: the branch taken for [elem_type]. *)
Definition classify (elem_type : string) : category :=
  if str_in elem_type table_types then Table
  else if str_in elem_type figure_types then Figure
  else if str_in elem_type header_types then Header
  else if str_in elem_type text_types then Text
  else if str_in elem_type list_types then List
  else if str_in elem_type footer_types then Footer
  else Other.

(** Lines 194 and 234: [elem.get('type', 'unknown').lower()], then the
    dispatch.  A label that is not a string has no [lower]. *)
Definition classify_label (elem : dict) : outcome category :=
  elem_type ← lower_method (dict_get "type" elem (VStr "unknown"));
  Ok (classify elem_type).

(** ** Page grouping and downloads (display_parsed_content) *)

(** The page key of an element.  The data model has [pageId] an optional
    integer; a page id of another type makes the Python code depend on the
    hashing and ordering of mixed keys, which is not modelled: [None]. *)
Definition page_key (v : value) : option (option Z) :=
  match v with
  | VNone => Some None
  | VInt z => Some (Some z)
  | _ => None
  end.

(** The locals [elements_by_page] and [no_page_elements] of lines 304-305. *)
Record grouping : Type := Grouping {
  elements_by_page : gmap Z (list element);
  no_page_elements : list element
}.

(** Lines 308-314, one turn of the loop. *)
Definition group_elem (g : grouping) (elem : element) (key : option Z)
  : grouping :=
  match key with
  | Some page =>
      let by_page :=
        match elements_by_page g !! page with
        | None => <[page := []]> (elements_by_page g)
        | Some _ => elements_by_page g
        end in
      Grouping (alter (λ l, l ++ [elem]) page by_page) (no_page_elements g)
  | None => Grouping (elements_by_page g) (no_page_elements g ++ [elem])
  end.

(** Lines 307-314. *)
Fixpoint group_from (g : grouping) (elems : list element) : option grouping :=
  match elems with
  | [] => Some g
  | elem :: rest =>
      key ← page_key (page_id elem);
      group_from (group_elem g elem key) rest
  end.

Definition group_by_page (elems : list element) : option grouping :=
  group_from (Grouping ∅ []) elems.

(** Line 319: [sorted(elements_by_page.keys())]. *)
Definition page_ids (g : grouping) : list Z :=
  merge_sort Z.le (map_to_list (elements_by_page g)).*1.

(** Lines 320-323: the options of the page selector, shown when there is
    more than one page. *)
Definition page_selector (g : grouping) : option (list Z) :=
  if decide (1 < length (page_ids g))%nat then Some (page_ids g) else None.

(** [a or b] *)
Definition py_or (a b : value) : value := if py_truthy a then a else b.

(** Lines 359 and 368-374: the data of the button Download as Text. *)
Definition download_text_data (parsed : result) : value :=
  py_or (VStr (plain_text parsed)) (raw_content parsed).

(** Lines 389-395: the data of the button Download as JSON. *)
Definition download_json_data (parsed : result) : value :=
  raw_content parsed.

(** ** The words of the specification *)

(** Section 4.1, the resolution order of [pageId]: (a) the item's own
    [page_id] if present; (b) else, if [bbox] is a sequence whose first entry
    is a mapping containing [page_id], that value; (c) else [None]. *)
Definition spec_page_id (elem : dict) : value :=
  match dict_lookup "page_id" elem with
  | Some v => v
  | None =>
      match dict_lookup "bbox" elem with
      | Some (VList (VDict first :: _)) =>
          match dict_lookup "page_id" first with
          | Some v => v
          | None => VNone
          end
      | _ => VNone
      end
  end.

(** Section 4.1, step 3, and section 9: the recognised shapes of a decoded
    mapping, in priority order. *)
Inductive shape : Type :=
| DocumentWrapped (doc : dict)
| ElementsOnly
| ContentOnly
| TextOnly
| Opaque.

Definition has_key (k : string) (d : dict) : Prop := dict_lookup k d ≠ None.

#[global] Instance has_key_dec k d : Decision (has_key k d).
Proof. unfold has_key. destruct (dict_lookup k d); [left | right]; naive_solver. Defined.

Definition spec_shape (p : dict) : shape :=
  match dict_lookup "document" p with
  | Some (VDict doc) => DocumentWrapped doc
  | _ =>
      if decide (has_key "elements" p) then ElementsOnly
      else if decide (has_key "content" p) then ContentOnly
      else if decide (has_key "text" p) then TextOnly
      else Opaque
  end.

(** The elements source of each shape: [document.elements], or the empty
    sequence if absent; the value of [elements]; none otherwise. *)
Definition spec_elements_source (p : dict) : value :=
  match spec_shape p with
  | DocumentWrapped doc => default (VList []) (dict_lookup "elements" doc)
  | ElementsOnly => default (VList []) (dict_lookup "elements" p)
  | ContentOnly | TextOnly | Opaque => VList []
  end.

(** Section 4.1, element extraction: the element of a mapping whose fields
    are defaulted one by one. *)
Definition label (elem : dict) : string :=
  match dict_lookup "type" elem with
  | Some (VStr s) => s
  | _ => "unknown"
  end.

Definition normalized (elem : dict) : element :=
  {| type := lower (label elem);
     content := default (VStr EmptyString) (dict_lookup "content" elem);
     description := default (VStr EmptyString) (dict_lookup "description" elem);
     id := default VNone (dict_lookup "id" elem);
     page_id := spec_page_id elem;
     bbox := match dict_lookup "bbox" elem with
             | Some b => b
             | None => default VNone (dict_lookup "coord" elem)
             end;
     raw := VDict elem |}.

(** The elements of the mapping entries of a sequence, in order; the
    entries that are not mappings are passed over. *)
Definition processed (items : list value) : list element :=
  omap (λ v, match v with VDict e => Some (normalized e) | _ => None end) items.

(** ** Classes of entries *)

(** The [type] field is absent or a string. *)
Definition type_ok (elem : dict) : bool :=
  match dict_lookup "type" elem with
  | None | Some (VStr _) => true
  | Some _ => false
  end.

(** The [bbox] field is absent, or not a list, or a list whose first entry
    is a mapping. *)
Definition bbox_ok (elem : dict) : bool :=
  match dict_lookup "bbox" elem with
  | Some (VList (VDict _ :: _)) => true
  | Some (VList _) => false
  | _ => true
  end.

(** The [bbox] field is a list whose first entry is not a mapping. *)
Definition bbox_first_not_mapping (elem : dict) : bool :=
  match dict_lookup "bbox" elem with
  | Some (VList (VDict _ :: _)) => false
  | Some (VList (_ :: _)) => true
  | _ => false
  end.

(** The [bbox] field is the empty list. *)
Definition bbox_empty (elem : dict) : bool :=
  match dict_lookup "bbox" elem with
  | Some (VList []) => true
  | _ => false
  end.

(** An entry that the loop passes without an exception. *)
Definition entry_ok (v : value) : bool :=
  match v with
  | VDict e => type_ok e && bbox_ok e
  | _ => true
  end.

(** ** The loop as a scan *)

(** The elements built before the first exception of the loop, and that
    exception if there is one. *)
Fixpoint scan (items : list value) : list element * option exn :=
  match items with
  | [] => ([], None)
  | VDict e :: rest =>
      match build_element e with
      | Ok p => let '(ps, stop) := scan rest in (p :: ps, stop)
      | Raise ex => ([], Some ex)
      end
  | _ :: rest => scan rest
  end.

Definition in_category (c : category) (p : element) : Prop :=
  classify (type p) = c.

#[global] Instance in_category_dec c p : Decision (in_category c p).
Proof. unfold in_category. apply _. Defined.

(** [result] after the loop has appended the elements [new]. *)
Definition extend (new : list element) (st : result) : result :=
  {| is_json := is_json st;
     elements := elements st ++ new;
     raw_content := raw_content st;
     plain_text := plain_text st;
     tables := tables st ++ filter (in_category Table) new;
     figures := figures st ++ filter (in_category Figure) new;
     headers := headers st ++ filter (in_category Header) new;
     metadata := metadata st |}.

(** [result] after lines 208-216 for one element. *)
Definition commit (p : element) (st : result) : result :=
  match classify (type p) with
  | Table => append_tables p (append_elements p st)
  | Figure => append_figures p (append_elements p st)
  | Header => append_headers p (append_elements p st)
  | _ => append_elements p st
  end.

(** The items the loop visits for a decoded payload: what lines 165-186
    bind to [elements], iterated.  [select_structure] writes to [result] but
    does not read it. *)
Definition source_items float_repr str_repr (parsed : value)
  : outcome (list value) :=
  src ← (select_structure float_repr str_repr parsed (initial_result VNone)).1;
  py_iter src.

(** Page keys of elements, for the statement of the grouping. *)
Definition on_page (z : Z) (e : element) : bool :=
  match page_id e with VInt z' => z =? z' | _ => false end.

Definition without_page (e : element) : bool :=
  match page_id e with VNone => true | _ => false end.

Definition page_typed (e : element) : bool :=
  match page_id e with VNone | VInt _ => true | _ => false end.

(** The bucket of a page after more elements are grouped: it is created by
    the first element of the page and grows at its end. *)
Definition bucket_after (old : option (list element)) (new : list element)
  : option (list element) :=
  match old, new with
  | None, [] => None
  | _, _ => Some (default [] old ++ new)
  end.

(** ** Inputs of the examples *)

(** The double quote, for writing JSON text. *)
Definition q : string := String "034"%char EmptyString.

(** The normaliser on JSON text, decoded by [Json.loads]. *)
Definition run (text : string) : outcome result :=
  parse_ai_response Json.loads Json.no_float_repr Json.plain_str_repr (VStr text).

(** [{"content": "hello"}] *)
Definition text_content_hello : string :=
  "{" +:+ q +:+ "content" +:+ q +:+ ": " +:+ q +:+ "hello" +:+ q +:+ "}".

(** [[{"bbox": []}]] *)
Definition text_empty_bbox : string :=
  "[{" +:+ q +:+ "bbox" +:+ q +:+ ": []}]".


(** [[7, {"type": "TABLE", "content": "<table></table>"}, {"type": 5}, {}]] *)
Definition text_good_then_bad : string :=
  "[7, {" +:+ q +:+ "type" +:+ q +:+ ": " +:+ q +:+ "TABLE" +:+ q +:+ ", "
  +:+ q +:+ "content" +:+ q +:+ ": " +:+ q +:+ "<table></table>" +:+ q
  +:+ "}, {" +:+ q +:+ "type" +:+ q +:+ ": 5}, {}]".

(** [{"document": {"elements": [{"type": "title"}], "page_count": 3}}] *)
Definition text_document : string :=
  "{" +:+ q +:+ "document" +:+ q +:+ ": {" +:+ q +:+ "elements" +:+ q
  +:+ ": [{" +:+ q +:+ "type" +:+ q +:+ ": " +:+ q +:+ "title" +:+ q
  +:+ "}], " +:+ q +:+ "page_count" +:+ q +:+ ": 3}}".

(** [[{"content": "hello"}]] *)
Definition text_paragraph : string :=
  "[{" +:+ q +:+ "content" +:+ q +:+ ": " +:+ q +:+ "hello" +:+ q +:+ "}]".

(** [[{"type": "Figure", "description": "a chart"}, {"content": "hello"},
     {"type": "text"}, {"type": "title", "content": ["a", 1]}]] *)
Definition text_mixed : string :=
  "[{" +:+ q +:+ "type" +:+ q +:+ ": " +:+ q +:+ "Figure" +:+ q +:+ ", "
  +:+ q +:+ "description" +:+ q +:+ ": " +:+ q +:+ "a chart" +:+ q +:+ "}, {"
  +:+ q +:+ "content" +:+ q +:+ ": " +:+ q +:+ "hello" +:+ q +:+ "}, {"
  +:+ q +:+ "type" +:+ q +:+ ": " +:+ q +:+ "text" +:+ q +:+ "}, {"
  +:+ q +:+ "type" +:+ q +:+ ": " +:+ q +:+ "title" +:+ q +:+ ", "
  +:+ q +:+ "content" +:+ q +:+ ": [" +:+ q +:+ "a" +:+ q +:+ ", 1]}]".

Definition entry_table : dict :=
  [("type", VStr "TABLE"); ("content", VStr "<table></table>")].
Definition entry_bad_type : dict := [("type", VInt 5)].
Definition payload_document : dict :=
  [("document", VDict [("elements", VList [VDict [("type", VStr "title")]]);
                       ("page_count", VInt 3)])].


Definition elem_on (page : value) (text : string) : element :=
  {| type := "text"; content := VStr text; description := VStr EmptyString;
     id := VNone; page_id := page; bbox := VNone; raw := VDict [] |}.

Definition sample_elements : list element :=
  [elem_on (VInt 2) "a"; elem_on VNone "b"; elem_on (VInt 0) "c";
   elem_on (VInt 2) "d"; elem_on VNone "e"].

(** ** Further inputs *)

(** [{"elements": 5, "pages": 2}] and [{"elements": "abc"}] *)
Definition text_elements_number : string :=
  "{" +:+ q +:+ "elements" +:+ q +:+ ": 5, " +:+ q +:+ "pages" +:+ q +:+ ": 2}".
Definition text_elements_string : string :=
  "{" +:+ q +:+ "elements" +:+ q +:+ ": " +:+ q +:+ "abc" +:+ q +:+ "}".

(** The test of line 191 *)
Definition is_mapping (v : value) : bool :=
  match v with VDict _ => true | _ => false end.

(** The categories with a bucket of their own. *)
Definition bucket_categories : list category := [Table; Figure; Header].

(** ** The type breakdown of the summary tab (lines 412-421) *)

(** [type_counts], a dictionary from type to count; it keeps its keys in
    order of insertion.  [d.get(k, default)] and [d[k] = n]: *)
Fixpoint counts_get (k : string) (d : list (string * Z)) (default : Z) : Z :=
  match d with
  | [] => default
  | (k', n) :: d' => if String.eqb k k' then n else counts_get k d' default
  end.

Fixpoint counts_set (k : string) (n : Z) (d : list (string * Z))
  : list (string * Z) :=
  match d with
  | [] => [(k, n)]
  | (k', n') :: d' =>
      if String.eqb k k' then (k', n) :: d' else (k', n') :: counts_set k n d'
  end.

(** Lines 416-417, one turn of the loop. *)
Definition count_elem (type_counts : list (string * Z)) (elem : element)
  : list (string * Z) :=
  let elem_type := type elem in
  counts_set elem_type (counts_get elem_type type_counts 0 + 1) type_counts.

(** Lines 414-417. *)
Definition type_counts (elems : list element) : list (string * Z) :=
  foldl count_elem [] elems.

(** [sorted(l, key=key)].  The sort of Python is stable, and the result of a
    stable sort does not depend on the algorithm: this is insertion from the
    right, which puts an item before the items of the same key that come
    after it. *)
Fixpoint insert_by {A} (key : A → Z) (x : A) (l : list A) : list A :=
  match l with
  | [] => [x]
  | y :: l' => if key x <=? key y then x :: l else y :: insert_by key x l'
  end.

Definition sorted_by {A} (key : A → Z) (l : list A) : list A :=
  foldr (insert_by key) [] l.

(** Line 420: [sorted(type_counts.items(), key=lambda x: -x[1])]. *)
Definition type_breakdown (elems : list element) : list (string * Z) :=
  sorted_by (λ x, - x.2) (type_counts elems).

(** Line 421: the lines written. *)
Definition breakdown_lines (elems : list element) : list string :=
  (λ x, "**" +:+ x.1 +:+ ":** " +:+ str_of_Z x.2) <$> type_breakdown elems.

(** The number of elements of a type. *)
Definition of_type (t : string) (e : element) : bool := String.eqb (type e) t.

(** ** render_element_content (lines 232-285) *)

(** The calls to the user interface, with their arguments. *)
Inductive widget : Type :=
| StMarkdown (body : value) (unsafe_allow_html : bool)
| StCode (body : value)
| StCaption (body : value)
| StInfo (body : value)
| StText (body : value).

(** The float 1.0, and [page_id + 1]: an integer, or a boolean taken as an
    integer, or a float in the arithmetic of IEEE 754 doubles; the other
    values cannot be added to an integer. *)
Definition float_one : spec_float := S754_finite false 4503599627370496 (-52).

Definition add_one (page_id : value) : outcome value :=
  match page_id with
  | VInt z => Ok (VInt (z + 1))
  | VBool b => Ok (VInt ((if b then 1 else 0) + 1))
  | VFloat f => Ok (VFloat (SFadd 53 1024 f float_one))
  | VNone | VStr _ | VList _ | VDict _ => Raise TypeError
  end.

(** [needle in hay] on strings *)
Fixpoint contains (needle hay : string) : bool :=
  String.prefix needle hay
  || match hay with
     | EmptyString => false
     | String _ hay' => contains needle hay'
     end.

Definition is_upper_ascii (c : ascii) : bool :=
  let n := N_of_ascii c in ((65 <=? n) && (n <=? 90))%N.
Definition is_lower_ascii (c : ascii) : bool :=
  let n := N_of_ascii c in ((97 <=? n) && (n <=? 122))%N.
Definition upper_ascii (c : ascii) : ascii :=
  if is_lower_ascii c then ascii_of_N (N_of_ascii c - 32) else c.

(** [s.title()]: a letter that follows a letter is lowered, a letter that
    does not is raised.  As for [lower], the letters are A-Z and a-z. *)
Fixpoint title_from (previous_is_cased : bool) (s : string) : string :=
  match s with
  | EmptyString => EmptyString
  | String c s' =>
      if is_lower_ascii c || is_upper_ascii c then
        String (if previous_is_cased then lower_ascii c else upper_ascii c)
               (title_from true s')
      else String c (title_from false s')
  end.

Definition title (s : string) : string := title_from false s.

(** The headings of lines 243, 254 and 261. *)
Definition table_heading (page_info : string) : string :=
  "**📊 Table" +:+ page_info +:+ "**".
Definition figure_heading (page_info : string) : string :=
  "**🖼️ Figure" +:+ page_info +:+ "**".
Definition header_heading (content page_info : string) : string :=
  "### 📑 " +:+ content +:+ page_info.

Section Render.

Variable float_repr : spec_float → string.
Variable str_repr : string → string.

Local Abbreviation py_str := (py_str float_repr str_repr).

(** Line 240: [f" (Page {page_id + 1})" if page_id is not None else ""]. *)
Definition page_info_of (page_id : value) : outcome string :=
  match page_id with
  | VNone => Ok EmptyString
  | _ => n ← add_one page_id; Ok (" (Page " +:+ py_str n +:+ ")")
  end.

(** [[w] if v else []] *)
Definition when (v : value) (w : widget) : list widget :=
  if py_truthy v then [w] else [].

(** Lines 232-285, on a processed element, whose keys are all present; the
    widgets are in the order of the calls.  [key_prefix] is not used by the
    function. *)
Definition render_element_content (element : element)
  : outcome (list widget) :=
  let elem_type := lower (type element) in
  let content := content element in
  let description := description element in
  page_info ← page_info_of (page_id element);
  Ok match classify elem_type with
     | Table =>
         [StMarkdown (VStr (table_heading page_info)) false]
         ++ when content
              (if contains "<table" (lower (py_str content))
               then StMarkdown content true else StCode content)
         ++ when description
              (StCaption (VStr ("Description: " +:+ py_str description)))
     | Figure =>
         [StMarkdown (VStr (figure_heading page_info)) false]
         ++ when description (StInfo (VStr ("📝 " +:+ py_str description)))
         ++ when content (StText content)
     | Header =>
         [StMarkdown (VStr (header_heading (py_str content) page_info)) false]
         ++ when description (StCaption description)
     | Text =>
         when content (StMarkdown (VStr (py_str content)) false)
         ++ (if py_truthy description && negb (py_truthy content)
             then [StText description] else [])
     | List =>
         when content (StMarkdown (VStr ("• " +:+ py_str content)) false)
     | Footer =>
         [StCaption (VStr ("📄 Footer" +:+ page_info +:+ ": "
                             +:+ py_str (py_or content description)))]
     | Other =>
         if py_truthy content || py_truthy description then
           [StMarkdown (VStr ("**" +:+ title elem_type +:+ page_info +:+ ":**"))
                       false]
           ++ when content (StText content)
           ++ when description (StCaption description)
         else []
     end.

End Render.

(** Values that can be added to an integer. *)
Definition addable (v : value) : bool :=
  match v with
  | VBool _ | VInt _ | VFloat _ => true
  | _ => false
  end.

(** ** All the buckets of the page grouping *)

(** The buckets of the pages, in the order of [page_ids], then the elements
    without a page: what lines 329, 337 and 345 iterate over, page after
    page. *)
Definition grouped_elements (g : grouping) : list element :=
  concat (omap (λ page, elements_by_page g !! page) (page_ids g))
  ++ no_page_elements g.

(** The types in the order in which a list first shows them. *)
Definition first_seen (l : list string) : list string :=
  foldl (λ seen t, if decide (t ∈ seen) then seen else seen ++ [t]) [] l.

(** ** The warehouse id (get_warehouse_id, lines 124-132) *)

(** The ASCII characters that [str.strip] removes. *)
Definition is_space (c : ascii) : bool :=
  let n := N_of_ascii c in
  (((9 <=? n) && (n <=? 13)) || ((28 <=? n) && (n <=? 32)))%N.

Fixpoint lstrip (s : string) : string :=
  match s with
  | String c s' => if is_space c then lstrip s' else s
  | EmptyString => EmptyString
  end.

Fixpoint rstrip (s : string) : string :=
  match s with
  | EmptyString => EmptyString
  | String c s' =>
      match rstrip s' with
      | EmptyString => if is_space c then EmptyString else String c EmptyString
      | t => String c t
      end
  end.

(** [s.strip()] *)
Definition strip (s : string) : string := rstrip (lstrip s).

(** Lines 124-132.  [session_warehouse_id] is the entry [warehouse_id] of
    the session state, if there is one; [DEFAULT_WAREHOUSE_ID] is the
    attribute of [Config], a string or [None]. *)
Definition get_warehouse_id (session_warehouse_id : option string)
    (DEFAULT_WAREHOUSE_ID : value) : value :=
  let user_warehouse_id := strip (default EmptyString session_warehouse_id) in
  if py_truthy (VStr user_warehouse_id) then VStr user_warehouse_id
  else DEFAULT_WAREHOUSE_ID.

Definition all_space (s : string) : Prop :=
  Forall (λ c, is_space c = true) (list_ascii_of_string s).

(** ** Configuration (config.py, lines 30-41; run.py, lines 25-42) *)

(** [a and b] *)
Definition py_and (a b : value) : value := if py_truthy a then b else a.

(** [Config.is_configured], on the class attributes, each a string or
    [None]. *)
Definition is_configured (DATABRICKS_HOST DATABRICKS_TOKEN : value) : bool :=
  py_truthy (py_and DATABRICKS_HOST DATABRICKS_TOKEN).

Record config_status : Type := ConfigStatus {
  databricks_host_configured : bool;
  databricks_token_configured : bool;
  default_warehouse_configured : bool
}.

(** [Config.get_config_status] *)
Definition get_config_status
    (DATABRICKS_HOST DATABRICKS_TOKEN DEFAULT_WAREHOUSE_ID : value)
  : config_status :=
  {| databricks_host_configured := py_truthy DATABRICKS_HOST;
     databricks_token_configured := py_truthy DATABRICKS_TOKEN;
     default_warehouse_configured := py_truthy DEFAULT_WAREHOUSE_ID |}.

(** The lines that [check_config] prints when the credentials are missing
    (run.py, lines 35-39). *)
Definition credentials_hint : list string :=
  [newline +:+ "⚠️  Please configure Databricks credentials:";
   "Environment variables:";
   "  export DATABRICKS_HOST='https://your-workspace.cloud.databricks.com'";
   "  export DATABRICKS_TOKEN='your-token'";
   newline +:+ "Or create ~/.databrickscfg file - see README.md for details"].

(** [check_config] of run.py: what it returns and what it prints. *)
Definition check_config
    (DATABRICKS_HOST DATABRICKS_TOKEN DEFAULT_WAREHOUSE_ID : value)
  : bool * list string :=
  let status :=
    get_config_status DATABRICKS_HOST DATABRICKS_TOKEN DEFAULT_WAREHOUSE_ID in
  let report :=
    [newline +:+ "🔧 Configuration Status:";
     "Databricks Host: " +:+ (if databricks_host_configured status then "✅" else "❌");
     "Databricks Token: " +:+ (if databricks_token_configured status then "✅" else "❌");
     "Default Warehouse: " +:+ (if default_warehouse_configured status then "✅"
        else "⚠️  (can be set in UI)")] in
  if negb (databricks_host_configured status)
     || negb (databricks_token_configured status)
  then (false, report ++ credentials_hint)
  else (true, report).

(** ** Keys of the uploaded files (document_parser_tab, line 607) *)

(** [s.replace(old, new)] for patterns of one character *)
Fixpoint replace_char (old new : ascii) (s : string) : string :=
  match s with
  | EmptyString => EmptyString
  | String c s' =>
      String (if Ascii.eqb c old then new else c) (replace_char old new s')
  end.

(** [uploaded_file.name.replace('.', '_').replace(' ', '_')], the key under
    which the widgets and the parsed result of a file are kept. *)
Definition file_key (name : string) : string :=
  replace_char " " "_" (replace_char "." "_" name).

(** The characters that [file_key] does not tell apart. *)
Definition key_separator (c : ascii) : bool :=
  Ascii.eqb c "." || Ascii.eqb c " " || Ascii.eqb c "_".

(** ** The statements sent to the warehouse *)

(** execute_agent_query, lines 493-502 *)
Definition agent_sql_query (table_name input_column prompt output_column : string)
  : string :=
  newline +:+ "        SELECT" +:+ newline +:+ "          "
  +:+ input_column +:+ "," +:+ newline +:+ "          ai_query("
  +:+ newline +:+ "            'databricks-gpt-5-2'," +:+ newline
  +:+ "            CONCAT('" +:+ prompt +:+ "', " +:+ input_column +:+ ")"
  +:+ newline +:+ "          ) AS " +:+ output_column +:+ newline
  +:+ "        FROM " +:+ table_name +:+ newline +:+ "        LIMIT 100;"
  +:+ newline +:+ "        ".

(** agent_query_tab, lines 740-749 *)
Definition query_preview (table_name input_column prompt output_column : string)
  : string :=
  newline +:+ "        SELECT" +:+ newline +:+ "          "
  +:+ input_column +:+ "," +:+ newline +:+ "          ai_query("
  +:+ newline +:+ "            'databricks-gpt-5-2'," +:+ newline
  +:+ "            CONCAT('" +:+ prompt +:+ "', " +:+ input_column +:+ ")"
  +:+ newline +:+ "          ) AS " +:+ output_column +:+ newline
  +:+ "        FROM " +:+ table_name +:+ newline +:+ "        LIMIT 100;"
  +:+ newline +:+ "        ".

(** parse_document_with_ai, lines 454-459 *)
Definition parse_sql_query (dbfs_path : string) : string :=
  newline +:+ "        SELECT" +:+ newline +:+ "            path,"
  +:+ newline
  +:+ "            ai_parse_document(content) as parsed_content"
  +:+ newline +:+ "        FROM READ_FILES('" +:+ dbfs_path
  +:+ "', format => 'binaryFile')" +:+ newline +:+ "        ".

(** agent_query_tab, line 738: the preview is shown, and the button with
    it, when the four fields are filled in. *)
Definition previewed (table_name input_column prompt output_column : string)
  : option string :=
  if py_truthy (VStr table_name) && py_truthy (VStr input_column)
     && py_truthy (VStr output_column) && py_truthy (VStr prompt)
  then Some (query_preview table_name input_column prompt output_column)
  else None.

(** execute_agent_query, lines 487-511: the warehouse and the statement
    handed to [execute_statement], if the function gets that far. *)
Definition submitted (warehouse_id : value)
    (table_name input_column prompt output_column : string)
  : option (value * string) :=
  if negb (py_truthy warehouse_id) then None
  else Some (warehouse_id,
             agent_sql_query table_name input_column prompt output_column).

(** ** parse_document_with_ai (lines 450-481) and what the tab keeps *)

(** The response of [execute_statement]: [result.result], which may be
    [None], and its [data_array], which may be [None]. *)
Record result_data : Type := ResultData {
  data_array : option (list (list value))
}.

Record statement_response : Type := StatementResponse {
  response_result : option result_data
}.

(** The dictionary [parsed_data] of lines 471-474. *)
Record parsed_data : Type := ParsedData {
  path : value;
  parsed_content : value
}.

(** [l[i]] *)
Definition py_item {A} (l : list A) (i : nat) : outcome A :=
  match l !! i with
  | Some x => Ok x
  | None => Raise IndexError
  end.

(** Lines 469-477, after the call.  Each [data_array[0]] of the source is
    an indexing of its own. *)
Definition first_row (response : statement_response) (dbfs_path : string)
  : outcome (option parsed_data) :=
  match response_result response with
  | Some (ResultData (Some rows)) =>
      if py_truthy (VList (VList <$> rows)) then
        tested ← py_item rows 0;
        p ← (if py_truthy (VList tested)
             then row ← py_item rows 0; py_item row 0
             else Ok (VStr dbfs_path));
        measured ← py_item rows 0;
        c ← (if (1 <? length measured)%nat
             then row ← py_item rows 0; py_item row 1
             else Ok VNone);
        Ok (Some {| path := p; parsed_content := c |})
      else Ok None
  | _ => Ok None
  end.

(** What [st.error] is given at line 480: the message of the exception of
    the call, or an exception of the lines after it. *)
Inductive parse_failure : Type :=
| CallFailed (message : string)
| BodyFailed (ex : exn).

(** Lines 450-481.  [execute_statement] stands for the method of the client,
    given the warehouse id, the statement and the timeout; it gives a
    response or raises with a message. *)
Definition parse_document_with_ai
    (execute_statement : value → string → string → string + statement_response)
    (session_warehouse_id : option string) (DEFAULT_WAREHOUSE_ID : value)
    (dbfs_path : string)
  : option parsed_data * list parse_failure :=
  let sql_query := parse_sql_query dbfs_path in
  match execute_statement
          (get_warehouse_id session_warehouse_id DEFAULT_WAREHOUSE_ID)
          sql_query "30s" with
  | inl message => (None, [CallFailed message])
  | inr response =>
      match first_row response dbfs_path with
      | Ok parsed_data => (parsed_data, [])
      | Raise ex => (None, [BodyFailed ex])
      end
  end.

(** document_parser_tab, lines 651-654: what is put in the session state
    under the key of the file. *)
Definition kept_content (parsed_result : option parsed_data) : option value :=
  match parsed_result with
  | Some d => if py_truthy (parsed_content d) then Some (parsed_content d) else None
  | None => None
  end.

(** ** Inputs of the further examples *)

(** The decoded [text_mixed]. *)
Definition payload_mixed : list value :=
  [VDict [("type", VStr "Figure"); ("description", VStr "a chart")];
   VDict [("content", VStr "hello")];
   VDict [("type", VStr "text")];
   VDict [("type", VStr "title"); ("content", VList [VStr "a"; VInt 1])]].

(** A warehouse that answers every statement with one row, of the path and
    the text [text_paragraph]. *)
Definition sample_execute (warehouse_id : value) (statement timeout : string)
  : string + statement_response :=
  inr (StatementResponse
         (Some (ResultData
                  (Some [[VStr "dbfs:/tmp/document_parser/a.pdf";
                          VStr text_paragraph]])))).

(** ** The parsed results in the session state (document_parser_tab) *)

(** Line 630: [f"parsed_result_{file_key}"]. *)
Definition result_key (name : string) : string :=
  "parsed_result_" +:+ file_key name.

(** Lines 651-654: the session state after the parsing of the file [name]
    has given [parsed_result]; nothing is written when there is no truthy
    parsed content. *)
Definition store_result (name : string) (parsed_result : option parsed_data)
    (session_state : gmap string value) : gmap string value :=
  match kept_content parsed_result with
  | Some v => <[result_key name := v]> session_state
  | None => session_state
  end.

(** Lines 665-671: the text handed to [display_parsed_content] for the file
    [name], if its key is in the session state:
    [str(st.session_state[result_key])]. *)
Definition displayed_content float_repr str_repr (name : string)
    (session_state : gmap string value) : option string :=
  py_str float_repr str_repr <$> session_state !! result_key name.

(** [[{"page_id": "1", "content": "x"}]] *)
Definition text_string_page_id : string :=
  "[{" +:+ q +:+ "page_id" +:+ q +:+ ": " +:+ q +:+ "1" +:+ q +:+ ", "
  +:+ q +:+ "content" +:+ q +:+ ": " +:+ q +:+ "x" +:+ q +:+ "}]".

(** * Properties *)

(** ** Dictionaries *)

Lemma dict_get_lookup k d v : dict_get k d v = default v (dict_lookup k d).
Proof. reflexivity. Qed.

Lemma dict_mem_has_key k d : dict_mem k d = true ↔ has_key k d.
Proof.
  unfold has_key. induction d as [|[k' v] d IH]; simpl.
  - split; [discriminate | congruence].
  - destruct (String.eqb k k'); [split; [discriminate | reflexivity] | exact IH].
Qed.

Lemma dict_mem_decide k d :
  dict_mem k d = bool_decide (has_key k d).
Proof.
  destruct (dict_mem k d) eqn:E; symmetry.
  - apply bool_decide_eq_true, dict_mem_has_key, E.
  - apply bool_decide_eq_false. rewrite <- dict_mem_has_key. congruence.
Qed.

Lemma dict_lookup_without k key d :
  dict_lookup k (dict_without key d)
  = if String.eqb k key then None else dict_lookup k d.
Proof.
  unfold dict_without. induction d as [|[k' v] d IH]; simpl.
  - destruct (String.eqb k key); reflexivity.
  - destruct (String.eqb k' key) eqn:Ek'; simpl.
    + rewrite IH. destruct (String.eqb k key) eqn:Ek; [reflexivity|].
      destruct (String.eqb k k') eqn:E; [|reflexivity].
      apply String.eqb_eq in E, Ek'. subst.
      rewrite String.eqb_refl in Ek. discriminate.
    + destruct (String.eqb k k') eqn:E.
      * apply String.eqb_eq in E. subst. rewrite Ek'. reflexivity.
      * exact IH.
Qed.

(** ** Building one element *)

Lemma build_element_ok e :
  type_ok e = true → bbox_ok e = true → build_element e = Ok (normalized e).
Proof.
  unfold type_ok, bbox_ok, build_element, normalized, resolve_page_id,
    bbox_page_id, spec_page_id, label, dict_get.
  intros Ht Hb.
  destruct (dict_lookup "type" e) as [[]|]; try discriminate;
    destruct (dict_lookup "bbox" e) as [[| | | | |[|[] l]|]|];
    try discriminate; simpl; try reflexivity;
    destruct (dict_lookup "page_id" e); reflexivity.
Qed.

Lemma build_element_type_error e :
  type_ok e = false → build_element e = Raise AttributeError.
Proof.
  unfold type_ok, build_element, dict_get. intros Ht.
  destruct (dict_lookup "type" e) as [[]|]; try discriminate; reflexivity.
Qed.

Lemma build_element_bbox_error e :
  type_ok e = true → bbox_first_not_mapping e = true →
  build_element e = Raise AttributeError.
Proof.
  unfold type_ok, bbox_first_not_mapping, build_element, resolve_page_id,
    bbox_page_id, dict_get.
  intros Ht Hb.
  destruct (dict_lookup "type" e) as [[]|]; try discriminate;
    destruct (dict_lookup "bbox" e) as [[| | | | |[|[] l]|]|];
    try discriminate; reflexivity.
Qed.

Lemma build_element_index_error e :
  type_ok e = true → bbox_empty e = true → build_element e = Raise IndexError.
Proof.
  unfold type_ok, bbox_empty, build_element, resolve_page_id,
    bbox_page_id, dict_get.
  intros Ht Hb.
  destruct (dict_lookup "type" e) as [[]|]; try discriminate;
    destruct (dict_lookup "bbox" e) as [[| | | | |[|] |]|];
    try discriminate; reflexivity.
Qed.

Lemma bbox_cases e :
  bbox_ok e = true ∨ bbox_first_not_mapping e = true ∨ bbox_empty e = true.
Proof.
  unfold bbox_ok, bbox_first_not_mapping, bbox_empty.
  destruct (dict_lookup "bbox" e) as [[| | | | |[|[] l]|]|]; auto.
Qed.

(** The only exceptions of [build_element]: [AttributeError], and
    [IndexError] exactly on an empty [bbox] list under a well-typed label. *)
Lemma build_element_raise e ex :
  build_element e = Raise ex →
  (ex = AttributeError ∧ (type_ok e = false ∨ bbox_first_not_mapping e = true))
  ∨ (ex = IndexError ∧ type_ok e = true ∧ bbox_empty e = true).
Proof.
  intros H. destruct (type_ok e) eqn:Ht.
  - destruct (bbox_cases e) as [Hb|[Hb|Hb]].
    + rewrite build_element_ok in H by assumption. discriminate.
    + rewrite build_element_bbox_error in H by assumption.
      injection H as <-. auto.
    + rewrite build_element_index_error in H by assumption.
      injection H as <-. auto.
  - rewrite build_element_type_error in H by assumption.
    injection H as <-. auto.
Qed.

Lemma entry_ok_build e :
  entry_ok (VDict e) = true ↔ build_element e = Ok (normalized e).
Proof.
  simpl. split.
  - intros [Ht Hb]%andb_true_iff. by apply build_element_ok.
  - intros H. destruct (type_ok e) eqn:Ht.
    + destruct (bbox_cases e) as [Hb|[Hb|Hb]]; [by rewrite Hb | |].
      * rewrite build_element_bbox_error in H by assumption. discriminate.
      * rewrite build_element_index_error in H by assumption. discriminate.
    + rewrite build_element_type_error in H by assumption. discriminate.
Qed.

(** ** The loop *)

Lemma scan_ok items :
  Forall (λ v, entry_ok v = true) items → scan items = (processed items, None).
Proof.
  induction 1 as [|v items Hv _ IH]; [reflexivity|].
  destruct v; simpl; try exact IH.
  apply entry_ok_build in Hv. rewrite Hv, IH. reflexivity.
Qed.

Lemma scan_stop pre e ex rest :
  Forall (λ v, entry_ok v = true) pre → build_element e = Raise ex →
  scan (pre ++ VDict e :: rest) = (processed pre, Some ex).
Proof.
  intros Hpre He. induction Hpre as [|v items Hv _ IH]; simpl.
  - rewrite He. reflexivity.
  - destruct v; simpl; try exact IH.
    apply entry_ok_build in Hv. rewrite Hv, IH. reflexivity.
Qed.

Section Properties.

Variable json_loads : string → option value.
Variable float_repr : spec_float → string.
Variable str_repr : string → string.

Local Abbreviation py_str := (py_str float_repr str_repr).
Local Abbreviation text_part := (text_part float_repr str_repr).
Local Abbreviation process_elem := (process_elem float_repr str_repr).
Local Abbreviation process_elems := (process_elems float_repr str_repr).
Local Abbreviation select_structure := (select_structure float_repr str_repr).
Local Abbreviation decode := (decode json_loads).
Local Abbreviation try_body := (try_body json_loads float_repr str_repr).
Local Abbreviation source_items := (source_items float_repr str_repr).
Local Abbreviation parse_ai_response :=
  (parse_ai_response json_loads float_repr str_repr).

Lemma categorize_run p st :
  categorize p st =
  (Ok (), match classify (type p) with
          | Table => append_tables p st
          | Figure => append_figures p st
          | Header => append_headers p st
          | _ => st
          end).
Proof.
  unfold categorize, classify.
  destruct (str_in (type p) table_types); [reflexivity|].
  destruct (str_in (type p) figure_types); [reflexivity|].
  destruct (str_in (type p) header_types); [reflexivity|].
  destruct (str_in (type p) text_types); [reflexivity|].
  destruct (str_in (type p) list_types); [reflexivity|].
  destruct (str_in (type p) footer_types); reflexivity.
Qed.

Lemma process_elem_built e p parts st :
  build_element e = Ok p →
  process_elem (VDict e) parts st = (Ok (parts ++ text_part p), commit p st).
Proof.
  intros He. unfold process_elem, commit, mbind, M_bind, lift, modify; simpl.
  rewrite He, categorize_run.
  destruct (classify (type p)); reflexivity.
Qed.

Lemma process_elem_raise e ex parts st :
  build_element e = Raise ex →
  process_elem (VDict e) parts st = (Raise ex, st).
Proof.
  intros He. unfold process_elem, mbind, M_bind, lift; simpl.
  rewrite He. reflexivity.
Qed.

Lemma process_elem_skip v parts st :
  (∀ e, v ≠ VDict e) → process_elem v parts st = (Ok parts, st).
Proof. intros Hv. destruct v; try reflexivity. by destruct (Hv d). Qed.

Lemma extend_nil st : extend [] st = st.
Proof. destruct st. unfold extend; simpl. by rewrite !app_nil_r. Qed.

Lemma extend_cons p ps st : extend (p :: ps) st = extend ps (commit p st).
Proof.
  unfold extend, commit, in_category. rewrite !filter_cons.
  repeat case_decide; destruct (classify (type p)); try congruence; simpl;
    by rewrite <- ?app_assoc.
Qed.

(** The loop appends the elements built before the first exception and
    ends with that exception, if any. *)
Lemma process_elems_scan items parts st :
  process_elems items parts st =
  (match (scan items).2 with
   | None => Ok (parts ++ concat (text_part <$> (scan items).1))
   | Some ex => Raise ex
   end, extend (scan items).1 st).
Proof.
  revert parts st. induction items as [|v items IH]; intros parts st.
  - simpl. rewrite app_nil_r, extend_nil. reflexivity.
  - assert (Hskip : (∀ e, v ≠ VDict e) →
      process_elems (v :: items) parts st = process_elems items parts st
      ∧ scan (v :: items) = scan items).
    { intros Hv. split.
      - change (process_elems (v :: items) parts st)
          with (match process_elem v parts st with
                | (Ok a, st') => process_elems items a st'
                | (Raise e, st') => (Raise e, st')
                end).
        by rewrite process_elem_skip.
      - destruct v; try reflexivity. by destruct (Hv d). }
    destruct v as [| | | | | |e];
      try (destruct Hskip as [-> ->]; [congruence | apply IH]).
    change (process_elems (VDict e :: items) parts st)
      with (match process_elem (VDict e) parts st with
            | (Ok a, st') => process_elems items a st'
            | (Raise ex, st') => (Raise ex, st')
            end).
    simpl scan. destruct (build_element e) as [p|ex] eqn:He.
    + rewrite (process_elem_built _ _ _ _ He), IH.
      destruct (scan items) as [ps stop]; simpl.
      rewrite extend_cons. destruct stop; [reflexivity|].
      by rewrite <- app_assoc.
    + rewrite (process_elem_raise _ _ _ _ He). simpl.
      by rewrite extend_nil.
Qed.

(** [select_structure] never raises, and what it returns does not depend
    on [result]. *)
Lemma select_structure_total parsed st :
  ∃ src st', select_structure parsed st = (Ok src, st')
    ∧ (∀ st0, (select_structure parsed st0).1 = Ok src)
    ∧ is_json st' = is_json st ∧ elements st' = elements st
    ∧ raw_content st' = raw_content st ∧ tables st' = tables st
    ∧ figures st' = figures st ∧ headers st' = headers st.
Proof.
  destruct parsed as [| | | | |l|p];
    try (eexists _, _; split; [reflexivity|]; by repeat split).
  unfold select_structure.
  destruct (dict_lookup "document" p) as [[| | | | | |doc]|];
    (destruct (dict_mem "elements" p);
     [|destruct (dict_mem "content" p); [|destruct (dict_mem "text" p)]]);
    (eexists _, _; split; [reflexivity|]; by repeat split).
Qed.

(** [parse_ai_response] in one equation, once the payload is decoded and
    the items of its elements source are known. *)
Lemma parse_decoded content parsed items :
  py_truthy content = true → decode content = Ok parsed →
  source_items parsed = Ok items →
  ∃ st, (select_structure parsed (set_is_json true (initial_result content))).2 = st
    ∧ is_json st = true ∧ elements st = [] ∧ tables st = []
    ∧ figures st = [] ∧ headers st = []
    ∧ parse_ai_response content =
      match (scan items).2 with
      | None =>
          Ok (set_plain_text
                (String.concat (newline +:+ newline)
                               (concat (text_part <$> (scan items).1)))
                (extend (scan items).1 st))
      | Some ex =>
          if caught ex
          then Ok (set_plain_text (py_str content) (extend (scan items).1 st))
          else Raise ex
      end.
Proof.
  intros Ht Hd Hs. eexists; split; [reflexivity|].
  unfold parse_ai_response, try_body. rewrite Ht. simpl.
  unfold mbind, M_bind, lift at 1. rewrite Hd. unfold modify at 1.
  destruct (select_structure_total parsed
              (set_is_json true (initial_result content)))
    as (src & st' & Hsel & Hsrc & Hj & He & _ & Htb & Hf & Hh).
  rewrite Hsel. simpl. repeat (split; [assumption|]).
  unfold source_items in Hs. rewrite Hsrc in Hs. simpl in Hs.
  unfold lift. rewrite Hs. rewrite process_elems_scan.
  destruct (scan items) as [ps [ex|]]; simpl; [|reflexivity].
  destruct (caught ex); reflexivity.
Qed.

(** Every exception that leaves the function is an [IndexError]. *)
Lemma parse_raise_index_error content ex :
  parse_ai_response content = Raise ex → ex = IndexError.
Proof.
  unfold parse_ai_response. destruct (negb (py_truthy content)); [discriminate|].
  destruct (try_body content (initial_result content)) as [[[]|e] r];
    [discriminate|].
  destruct e; simpl; try discriminate. by intros [= <-].
Qed.

Lemma scan_elements items :
  Forall (λ p, ∃ e, VDict e ∈ items ∧ build_element e = Ok p
                    ∧ p = normalized e) (scan items).1.
Proof.
  induction items as [|v items IH]; [constructor|].
  assert (Hrest : Forall (λ p, ∃ e, VDict e ∈ v :: items
                    ∧ build_element e = Ok p ∧ p = normalized e) (scan items).1).
  { eapply Forall_impl; [exact IH|]. intros p (e & Hin & Hp).
    exists e. split; [by right | exact Hp]. }
  destruct v as [| | | | | |e]; try exact Hrest.
  simpl. destruct (build_element e) as [p|ex] eqn:He; [|constructor].
  destruct (scan items) as [ps stop]. simpl in *. constructor; [|exact Hrest].
  exists e. split; [by left|]. split; [exact He|].
  destruct (type_ok e) eqn:Ht.
  - destruct (bbox_cases e) as [Hb|[Hb|Hb]].
    + rewrite build_element_ok in He by assumption. congruence.
    + rewrite build_element_bbox_error in He by assumption. discriminate.
    + rewrite build_element_index_error in He by assumption. discriminate.
  - rewrite build_element_type_error in He by assumption. discriminate.
Qed.

(** What the body of the [try] does to [result], however it ends: it
    appends the elements of a scan and leaves [raw_content] alone. *)
Lemma try_body_frame content st o st' :
  try_body content st = (o, st') →
  raw_content st' = raw_content st
  ∧ ∃ items,
      elements st' = elements st ++ (scan items).1
      ∧ tables st' = tables st ++ filter (in_category Table) (scan items).1
      ∧ figures st' = figures st ++ filter (in_category Figure) (scan items).1
      ∧ headers st' = headers st ++ filter (in_category Header) (scan items).1.
Proof.
  assert (Hnone : ∀ st1 : result,
    elements st1 = elements st → tables st1 = tables st →
    figures st1 = figures st → headers st1 = headers st →
    ∃ items,
      elements st1 = elements st ++ (scan items).1
      ∧ tables st1 = tables st ++ filter (in_category Table) (scan items).1
      ∧ figures st1 = figures st ++ filter (in_category Figure) (scan items).1
      ∧ headers st1 = headers st ++ filter (in_category Header) (scan items).1).
  { intros st1 -> -> -> ->. exists []. simpl. by rewrite !app_nil_r. }
  unfold try_body, mbind, M_bind, lift at 1.
  destruct (decode content) as [parsed|ex].
  2:{ intros [= <- <-]. split; [reflexivity | by apply Hnone]. }
  unfold modify at 1.
  destruct (select_structure_total parsed (set_is_json true st))
    as (src & st1 & -> & _ & _ & He & Hr & Ht & Hf & Hh).
  unfold lift. destruct (py_iter src) as [items|ex].
  2:{ intros [= <- <-]. split; [exact Hr | by apply Hnone]. }
  rewrite process_elems_scan.
  destruct (scan items) as [ps stop] eqn:Hscan. simpl.
  assert (Hps : ps = (scan items).1) by by rewrite Hscan.
  destruct stop; intros [= <- <-]; simpl;
    (split; [exact Hr|]); exists items; rewrite <- Hps, He, Ht, Hf, Hh; done.
Qed.

(** The shape of every document the function returns. *)
Lemma parse_frame content r :
  parse_ai_response content = Ok r →
  raw_content r = content
  ∧ ∃ items,
      elements r = (scan items).1
      ∧ tables r = filter (in_category Table) (scan items).1
      ∧ figures r = filter (in_category Figure) (scan items).1
      ∧ headers r = filter (in_category Header) (scan items).1.
Proof.
  unfold parse_ai_response. destruct (negb (py_truthy content)).
  { intros [= <-]. split; [reflexivity|]. by exists []. }
  destruct (try_body content (initial_result content)) as [o st'] eqn:Hb.
  apply try_body_frame in Hb as [Hraw (items & He & Ht & Hf & Hh)].
  simpl in *.
  assert (Hgoal : raw_content st' = content
    ∧ ∃ items, elements st' = (scan items).1
      ∧ tables st' = filter (in_category Table) (scan items).1
      ∧ figures st' = filter (in_category Figure) (scan items).1
      ∧ headers st' = filter (in_category Header) (scan items).1)
    by (split; [exact Hraw | by exists items]).
  destruct o as [[]|ex]; [by intros [= <-]|].
  destruct (caught ex); [|discriminate]. by intros [= <-].
Qed.


(** The body of the [try] once the payload is decoded. *)
Lemma try_body_decoded content parsed st src st1 :
  decode content = Ok parsed →
  select_structure parsed (set_is_json true st) = (Ok src, st1) →
  try_body content st =
  match py_iter src with
  | Raise ex => (Raise ex, st1)
  | Ok items =>
      match (scan items).2 with
      | None =>
          (Ok (), set_plain_text
                    (String.concat (newline +:+ newline)
                                   (concat (text_part <$> (scan items).1)))
                    (extend (scan items).1 st1))
      | Some ex => (Raise ex, extend (scan items).1 st1)
      end
  end.
Proof.
  intros Hd Hsel. unfold try_body, mbind, M_bind, lift at 1.
  rewrite Hd. unfold modify at 1. rewrite Hsel. unfold lift.
  destruct (py_iter src) as [items|ex]; [|reflexivity].
  rewrite process_elems_scan. by destruct (scan items) as [ps [ex|]].
Qed.

(** Lines 168-186 on a mapping, shape by shape. *)
Lemma select_structure_dict p st :
  select_structure (VDict p) st =
  (Ok (spec_elements_source p),
   match spec_shape p with
   | DocumentWrapped doc => set_metadata (dict_without "elements" doc) st
   | ElementsOnly => set_metadata (dict_without "elements" p) st
   | ContentOnly =>
       set_plain_text
         (py_str (default (VStr EmptyString) (dict_lookup "content" p))) st
   | TextOnly =>
       set_plain_text
         (py_str (default (VStr EmptyString) (dict_lookup "text" p))) st
   | Opaque => set_metadata p st
   end).
Proof.
  unfold select_structure, spec_elements_source, spec_shape.
  rewrite !dict_mem_decide.
  destruct (dict_lookup "document" p) as [[| | | | | |doc]|];
    try reflexivity;
    repeat (case_bool_decide; [rewrite ?decide_True by assumption; reflexivity
                              | rewrite decide_False by assumption]);
    reflexivity.
Qed.

(** C6. A decoded mapping is dispatched in this priority: a [document] key
    whose value is a mapping (elements source [document.elements], or the
    empty sequence; metadata the other keys of [document]); else an
    [elements] key (metadata the other top-level keys); else [content]; else
    [text]; else the whole mapping is the metadata.  The last three have no
    elements.  So for [{"document": {"elements": [...], "page_count": N}}]
    the metadata holds [page_count] and not [elements]. *)
Theorem mapping_branch_priority content p r :
  py_truthy content = true → decode content = Ok (VDict p) →
  parse_ai_response content = Ok r →
  (∀ st, (select_structure (VDict p) st).1 = Ok (spec_elements_source p))
  ∧ match spec_shape p with
    | DocumentWrapped doc =>
        ∀ k, dict_lookup k (metadata r)
             = if String.eqb k "elements" then None else dict_lookup k doc
    | ElementsOnly =>
        ∀ k, dict_lookup k (metadata r)
             = if String.eqb k "elements" then None else dict_lookup k p
    | ContentOnly | TextOnly => metadata r = [] ∧ elements r = []
    | Opaque => metadata r = p ∧ elements r = []
    end.
Proof.
  intros Ht Hd Hr. split.
  { intros st. by rewrite select_structure_dict. }
  unfold parse_ai_response in Hr. rewrite Ht in Hr. simpl in Hr.
  rewrite (try_body_decoded _ _ _ _ _ Hd (select_structure_dict _ _)) in Hr.
  unfold spec_elements_source in Hr.
  destruct (spec_shape p) as [doc| | | |]; simpl in Hr.
  - intros k. rewrite <- dict_lookup_without.
    destruct (py_iter _) as [items|ex].
    + destruct (scan items) as [ps [ex|]]; simpl in Hr;
        [destruct (caught ex); [|discriminate]|]; by injection Hr as <-.
    + destruct (caught ex); [|discriminate]. by injection Hr as <-.
  - intros k. rewrite <- dict_lookup_without.
    destruct (py_iter _) as [items|ex].
    + destruct (scan items) as [ps [ex|]]; simpl in Hr;
        [destruct (caught ex); [|discriminate]|]; by injection Hr as <-.
    + destruct (caught ex); [|discriminate]. by injection Hr as <-.
  - by injection Hr as <-.
  - by injection Hr as <-.
  - by injection Hr as <-.
Qed.

(** The defect behind C2: in the [content] and [text] branches line 178 or
    180 sets [plain_text], and line 224 then overwrites it with the join of
    no parts. *)
Lemma content_branch_plain_text_lost content p r :
  py_truthy content = true → decode content = Ok (VDict p) →
  spec_shape p = ContentOnly ∨ spec_shape p = TextOnly →
  parse_ai_response content = Ok r →
  plain_text r = EmptyString ∧ elements r = [].
Proof.
  intros Ht Hd Hshape Hr.
  unfold parse_ai_response in Hr. rewrite Ht in Hr. simpl in Hr.
  rewrite (try_body_decoded _ _ _ _ _ Hd (select_structure_dict _ _)) in Hr.
  unfold spec_elements_source in Hr.
  destruct Hshape as [E|E]; rewrite E in Hr; simpl in Hr; by injection Hr as <-.
Qed.



(** C10. When the payload is decoded and the processing of an entry raises
    [TypeError] or [AttributeError], the entries before it having been
    processed, the function returns a document with [is_json] true, with
    the elements (and the [tables], [figures] and [headers]) of the entries
    before the failing one, and with [plain_text] the [str] of the whole
    input. *)
Theorem element_error_gives_hybrid_result content parsed pre e ex rest :
  py_truthy content = true → decode content = Ok parsed →
  source_items parsed = Ok (pre ++ VDict e :: rest) →
  Forall (λ v, entry_ok v = true) pre →
  build_element e = Raise ex → ex = TypeError ∨ ex = AttributeError →
  ∃ r, parse_ai_response content = Ok r
    ∧ is_json r = true
    ∧ elements r = processed pre
    ∧ plain_text r = py_str content
    ∧ tables r = filter (in_category Table) (processed pre)
    ∧ figures r = filter (in_category Figure) (processed pre)
    ∧ headers r = filter (in_category Header) (processed pre).
Proof.
  intros Ht Hd Hs Hpre He Hex.
  destruct (parse_decoded _ _ _ Ht Hd Hs)
    as (st & _ & Hj & Hel & Htb & Hf & Hh & ->).
  rewrite (scan_stop _ _ _ _ Hpre He). simpl.
  assert (caught ex = true) as -> by (by destruct Hex as [-> | ->]).
  eexists; split; [reflexivity|]. simpl.
  rewrite Hj, Hel, Htb, Hf, Hh. done.
Qed.

(** ** When the function raises *)

Lemma scan_stop_entry items ex :
  (scan items).2 = Some ex → ∃ e, VDict e ∈ items ∧ build_element e = Raise ex.
Proof.
  induction items as [|v items IH]; [discriminate|].
  assert (Hrest : (scan items).2 = Some ex →
                  ∃ e, VDict e ∈ v :: items ∧ build_element e = Raise ex).
  { intros H. destruct (IH H) as (e & Hin & He). exists e. split; [by right | done]. }
  destruct v as [| | | | | |e]; try exact Hrest.
  simpl. destruct (build_element e) as [p|ex'] eqn:He.
  - destruct (scan items) as [ps stop]. exact Hrest.
  - intros [= <-]. exists e. split; [by left | done].
Qed.


(** And it returns a document whenever no mapping among the items has an
    empty [bbox] list. *)
Lemma parse_returns content :
  (∀ parsed items, decode content = Ok parsed →
     source_items parsed = Ok items →
     ∀ e, VDict e ∈ items → bbox_empty e = false) →
  ∃ r, parse_ai_response content = Ok r.
Proof.
  intros Hno. unfold parse_ai_response.
  destruct (negb (py_truthy content)); [by eexists|].
  destruct (try_body content (initial_result content)) as [[[]|ex] r] eqn:Hb;
    [by eexists|].
  destruct (caught ex) eqn:Hc; [by eexists|]. exfalso.
  destruct ex; try discriminate.
  destruct (decode content) as [parsed|ex] eqn:Hd.
  2:{ unfold try_body, mbind, M_bind, lift in Hb. rewrite Hd in Hb.
      injection Hb as -> _. destruct content; try discriminate.
      simpl in Hd. by destruct (json_loads s). }
  destruct (select_structure_total parsed
              (set_is_json true (initial_result content)))
    as (src & st1 & Hsel & Hsrc & _).
  rewrite (try_body_decoded _ _ _ _ _ Hd Hsel) in Hb.
  destruct (py_iter src) as [items|ex] eqn:Hi.
  2:{ injection Hb as -> _. by destruct src. }
  assert (Hitems : source_items parsed = Ok items).
  { unfold source_items. by rewrite Hsrc. }
  destruct (scan items).2 as [ex|] eqn:Hstop; [|discriminate].
  injection Hb as -> _.
  apply scan_stop_entry in Hstop as (e & Hin & He).
  apply build_element_raise in He as [[? _]|(_ & _ & Hb)]; [discriminate|].
  by rewrite (Hno _ _ eq_refl Hitems e Hin) in Hb.
Qed.

(** ** Classification *)









(** The case of a label does not matter: [lower] maps the letters A-Z to
    a-z and leaves what it has lowered alone. *)
Lemma lower_ascii_idempotent c : lower_ascii (lower_ascii c) = lower_ascii c.
Proof. by destruct c as [[] [] [] [] [] [] [] []]. Qed.

Lemma lower_idempotent s : lower (lower s) = lower s.
Proof.
  induction s as [|c s IH]; [reflexivity|].
  simpl. by rewrite lower_ascii_idempotent, IH.
Qed.


(** ** Downloads *)

(** C4, amended. The data of Download as JSON is [raw_content], which is the
    input itself.  The data of Download as Text is [plain_text] when that is
    not empty, and [raw_content] when it is. *)
Theorem download_data content r :
  parse_ai_response content = Ok r →
  download_json_data r = raw_content r
  ∧ raw_content r = content
  ∧ download_text_data r
    = if String.eqb (plain_text r) EmptyString then content
      else VStr (plain_text r).
Proof.
  intros Hr. apply parse_frame in Hr as [Hraw _].
  unfold download_json_data, download_text_data, py_or. simpl.
  rewrite Hraw. repeat split.
  by destruct (String.eqb (plain_text r) EmptyString).
Qed.

End Properties.

(** ** Examples and witnesses *)

Example decoded_content_hello :
  Json.loads text_content_hello = Some (VDict [("content", VStr "hello")]).
Proof. vm_compute. reflexivity. Qed.

Example classify_examples :
  classify (lower "TABLE") = Table
  ∧ classify (lower "Section_Header") = Header
  ∧ classify (lower "unknown_xyz") = Other
  ∧ classify_label [("content", VStr "no type")] = Ok Other
  ∧ classify_label [("type", VNone)] = Raise AttributeError.
Proof. vm_compute. repeat split. Qed.

(** C1. The function does not return on [[{"bbox": []}]]: line 203 indexes
    the empty [bbox] list, and the [IndexError] is not among the exceptions
    that line 226 catches, so it leaves the function. *)
Theorem empty_bbox_raises_index_error :
  run text_empty_bbox = Raise IndexError.
Proof. vm_compute. reflexivity. Qed.

(** C2. On [{"content": "hello"}] the returned [plain_text] is empty, not
    [hello]: line 178 stores the text and line 224 overwrites it. *)
Theorem content_hello_plain_text_empty :
  run text_content_hello
  = Ok {| is_json := true; elements := []; raw_content := VStr text_content_hello;
          plain_text := EmptyString; tables := []; figures := [];
          headers := []; metadata := [] |}.
Proof. vm_compute. reflexivity. Qed.


(** ** Page id *)




(** ** Page grouping *)

Lemma lookup_group_elem g elem page z :
  elements_by_page (group_elem g elem (Some page)) !! z
  = if decide (page = z)
    then Some (default [] (elements_by_page g !! page) ++ [elem])
    else elements_by_page g !! z.
Proof.
  unfold group_elem. simpl. rewrite lookup_alter.
  destruct (elements_by_page g !! page) as [l|] eqn:E.
  - rewrite E. by case_decide.
  - rewrite lookup_insert_eq. case_decide; [done|]. by rewrite lookup_insert_ne.
Qed.

Lemma group_from_cons g elem rest key :
  page_key (page_id elem) = Some key →
  group_from g (elem :: rest) = group_from (group_elem g elem key) rest.
Proof. intros H. simpl. by rewrite H. Qed.

Lemma group_from_spec elems g :
  Forall (λ e, page_typed e = true) elems →
  ∃ g', group_from g elems = Some g'
    ∧ no_page_elements g'
      = no_page_elements g ++ List.filter without_page elems
    ∧ ∀ z, elements_by_page g' !! z
           = bucket_after (elements_by_page g !! z)
                          (List.filter (on_page z) elems).
Proof.
  intros Htyped. revert g.
  induction Htyped as [|elem rest Helem _ IH]; intros g.
  - exists g. split; [reflexivity|]. split; [by rewrite app_nil_r|].
    intros z. simpl. destruct (elements_by_page g !! z); simpl; by rewrite ?app_nil_r.
  - unfold page_typed in Helem.
    destruct (page_id elem) as [| |page| | | |] eqn:Hp; try discriminate.
    + rewrite (group_from_cons g elem rest None) by by rewrite Hp.
      destruct (IH (group_elem g elem None)) as (g' & -> & Hno & Hby).
      exists g'. split; [reflexivity|].
      simpl. unfold without_page at 1, on_page at 1. rewrite Hp. split.
      * rewrite Hno. simpl. by rewrite <- app_assoc.
      * exact Hby.
    + rewrite (group_from_cons g elem rest (Some page)) by by rewrite Hp.
      destruct (IH (group_elem g elem (Some page))) as (g' & -> & Hno & Hby).
      exists g'. split; [reflexivity|].
      simpl. unfold without_page at 1, on_page at 1. rewrite Hp.
      split; [exact Hno|].
      intros z. rewrite Hby, lookup_group_elem.
      destruct (Z.eqb_spec z page) as [->|Hne].
      * rewrite decide_True by done. simpl.
        destruct (elements_by_page g !! page); simpl;
          [by rewrite <- app_assoc | reflexivity].
      * by rewrite decide_False by done.
Qed.


Lemma filter_on_page_nonempty z elems :
  List.filter (on_page z) elems ≠ [] ↔ ∃ e, e ∈ elems ∧ page_id e = VInt z.
Proof.
  split.
  - intros Hne. destruct (List.filter (on_page z) elems) as [|e l] eqn:E; [done|].
    assert (Hin : In e (List.filter (on_page z) elems)) by (rewrite E; by left).
    apply filter_In in Hin as [Hin Hon]. exists e.
    split; [by apply list_elem_of_In|].
    unfold on_page in Hon. destruct (page_id e); try discriminate.
    by apply Z.eqb_eq in Hon as ->.
  - intros (e & Hin & Hp) Hnil.
    assert (Hf : In e (List.filter (on_page z) elems)).
    { apply filter_In. split; [by apply list_elem_of_In|].
      unfold on_page. rewrite Hp. apply Z.eqb_refl. }
    by rewrite Hnil in Hf.
Qed.



Example sample_grouping :
  (λ g, (page_ids g, page_selector g, elements_by_page g !! 2,
         no_page_elements g)) <$> group_by_page sample_elements
  = Some ([0; 2], Some [0; 2],
          Some [elem_on (VInt 2) "a"; elem_on (VInt 2) "d"],
          [elem_on VNone "b"; elem_on VNone "e"]).
Proof. vm_compute. reflexivity. Qed.

(** ** Witnesses of the theorems on the normaliser *)

Example decoded_good_then_bad :
  Json.loads text_good_then_bad
  = Some (VList [VInt 7; VDict entry_table; VDict entry_bad_type; VDict []]).
Proof. vm_compute. reflexivity. Qed.


(** The plain text of a document: one paragraph for each element with a
    content, a bracketed line for one with a description only, nothing for
    the others, joined by blank lines. *)
Example run_mixed_plain_text :
  (λ r, (plain_text r, type <$> elements r, type <$> figures r,
         type <$> headers r, length (tables r))) <$> 
    match run text_mixed with Ok r => Some r | Raise _ => None end
  = Some ("[figure: a chart]" +:+ newline +:+ newline +:+ "hello"
            +:+ newline +:+ newline +:+ "['a', 1]",
          ["figure"; "unknown"; "text"; "title"], ["figure"], ["title"], 0%nat).
Proof. vm_compute. reflexivity. Qed.



Lemma element_error_gives_hybrid_result_witness :
  py_truthy (VStr text_good_then_bad) = true
  ∧ decode Json.loads (VStr text_good_then_bad)
    = Ok (VList [VInt 7; VDict entry_table; VDict entry_bad_type; VDict []])
  ∧ Forall (λ v, entry_ok v = true) [VInt 7; VDict entry_table]
  ∧ build_element entry_bad_type = Raise AttributeError
  ∧ ∃ r, run text_good_then_bad = Ok r
       ∧ is_json r = true
       ∧ elements r = processed [VInt 7; VDict entry_table]
       ∧ plain_text r = text_good_then_bad
       ∧ tables r = filter (in_category Table) (processed [VInt 7; VDict entry_table])
       ∧ figures r = filter (in_category Figure) (processed [VInt 7; VDict entry_table])
       ∧ headers r = filter (in_category Header) (processed [VInt 7; VDict entry_table]).
Proof.
  assert (H1 : py_truthy (VStr text_good_then_bad) = true)
    by (vm_compute; reflexivity).
  assert (H2 : decode Json.loads (VStr text_good_then_bad)
    = Ok (VList [VInt 7; VDict entry_table; VDict entry_bad_type; VDict []]))
    by (vm_compute; reflexivity).
  assert (H3 : Forall (λ v, entry_ok v = true) [VInt 7; VDict entry_table])
    by (repeat constructor).
  assert (H4 : build_element entry_bad_type = Raise AttributeError)
    by reflexivity.
  repeat (split; [assumption|]).
  refine (element_error_gives_hybrid_result
            Json.loads Json.no_float_repr Json.plain_str_repr
            (VStr text_good_then_bad) _
            [VInt 7; VDict entry_table] entry_bad_type AttributeError
            [VDict []] H1 H2 _ H3 H4 _).
  - reflexivity.
  - by right.
Defined.

Lemma mapping_branch_priority_witness :
  py_truthy (VStr text_document) = true
  ∧ decode Json.loads (VStr text_document) = Ok (VDict payload_document)
  ∧ ∃ r, run text_document = Ok r
       ∧ metadata r = [("page_count", VInt 3)]
       ∧ (∀ st, (select_structure Json.no_float_repr Json.plain_str_repr
                   (VDict payload_document) st).1
                = Ok (VList [VDict [("type", VStr "title")]]))
       ∧ (∀ k, dict_lookup k (metadata r)
               = if String.eqb k "elements" then None
                 else dict_lookup k [("elements", VList [VDict [("type", VStr "title")]]);
                                     ("page_count", VInt 3)]).
Proof.
  assert (H1 : py_truthy (VStr text_document) = true)
    by (vm_compute; reflexivity).
  assert (H2 : decode Json.loads (VStr text_document) = Ok (VDict payload_document))
    by (vm_compute; reflexivity).
  repeat (split; [assumption|]).
  eexists. split; [vm_compute; reflexivity|]. split; [reflexivity|].
  refine (mapping_branch_priority
            Json.loads Json.no_float_repr Json.plain_str_repr
            (VStr text_document) payload_document _ H1 H2 _).
  vm_compute. reflexivity.
Defined.


(** C4, as stated, fails: for the input [[]] the document has an empty
    [plain_text], and the data of Download as Text is the raw input. *)
Lemma text_download_not_plain_text :
  ∃ r, run "[]" = Ok r
     ∧ plain_text r = EmptyString
     ∧ download_text_data r = VStr "[]"
     ∧ download_text_data r ≠ VStr (plain_text r).
Proof.
  eexists. split; [vm_compute; reflexivity|].
  split; [reflexivity|]. split; [reflexivity | discriminate].
Qed.

Lemma download_data_witness :
  ∃ r, run text_paragraph = Ok r
     ∧ download_json_data r = raw_content r
     ∧ raw_content r = VStr text_paragraph
     ∧ download_text_data r = VStr "hello".
Proof.
  eexists. split; [vm_compute; reflexivity|].
  refine (download_data Json.loads Json.no_float_repr Json.plain_str_repr
            (VStr text_paragraph) _ _).
  vm_compute. reflexivity.
Defined.

(** * Further properties of the normaliser *)



Section MoreProperties.

Variable json_loads : string → option value.
Variable float_repr : spec_float → string.
Variable str_repr : string → string.

Local Abbreviation py_str := (py_str float_repr str_repr).
Local Abbreviation text_part := (text_part float_repr str_repr).
Local Abbreviation select_structure := (select_structure float_repr str_repr).
Local Abbreviation decode := (decode json_loads).
Local Abbreviation try_body := (try_body json_loads float_repr str_repr).
Local Abbreviation source_items := (source_items float_repr str_repr).
Local Abbreviation parse_ai_response :=
  (parse_ai_response json_loads float_repr str_repr).

(** The ways through the function. *)
Lemma parse_cases content :
  (py_truthy content = false
   ∧ parse_ai_response content = Ok (initial_result content))
  ∨ (py_truthy content = true ∧ decode content = Raise JSONDecodeError
     ∧ parse_ai_response content
       = Ok (set_plain_text (py_str content) (initial_result content)))
  ∨ (py_truthy content = true
     ∧ ∃ parsed st1, decode content = Ok parsed
       ∧ (select_structure parsed (set_is_json true (initial_result content))).2
         = st1
       ∧ is_json st1 = true ∧ elements st1 = [] ∧ tables st1 = []
       ∧ figures st1 = [] ∧ headers st1 = []
       ∧ ((source_items parsed = Raise TypeError
           ∧ parse_ai_response content = Ok (set_plain_text (py_str content) st1))
          ∨ (∃ items, source_items parsed = Ok items
             ∧ parse_ai_response content =
               match (scan items).2 with
               | None =>
                   Ok (set_plain_text
                         (String.concat (newline +:+ newline)
                            (concat (text_part <$> (scan items).1)))
                         (extend (scan items).1 st1))
               | Some ex =>
                   if caught ex
                   then Ok (set_plain_text (py_str content)
                              (extend (scan items).1 st1))
                   else Raise ex
               end))).
Proof.
  destruct (py_truthy content) eqn:Ht.
  2:{ left. split; [done|]. unfold parse_ai_response. by rewrite Ht. }
  right. destruct (decode content) as [parsed|ex] eqn:Hd.
  2:{ left. assert (ex = JSONDecodeError) as ->.
      { destruct content; try discriminate. simpl in Hd.
        destruct (json_loads s); congruence. }
      repeat split. unfold parse_ai_response, try_body, mbind, M_bind, lift.
      rewrite Ht. simpl. by rewrite Hd. }
  right. split; [done|].
  destruct (select_structure_total float_repr str_repr parsed
              (set_is_json true (initial_result content)))
    as (src & st1 & Hsel & Hsrc & Hj & He & _ & Htb & Hf & Hh).
  exists parsed, st1. split; [done|]. rewrite Hsel.
  repeat (split; [done|]).
  destruct (py_iter src) as [items|ex] eqn:Hi.
  - right. exists items. split.
    { unfold source_items. by rewrite Hsrc. }
    destruct (parse_decoded json_loads float_repr str_repr content parsed items
                Ht Hd) as (st & Hst & _ & _ & _ & _ & _ & ->).
    { unfold source_items. by rewrite Hsrc. }
    rewrite Hsel in Hst. simpl in Hst. by subst st.
  - left. assert (ex = TypeError) as -> by (destruct src; simpl in Hi; congruence).
    split.
    { unfold source_items. by rewrite Hsrc. }
    unfold parse_ai_response. rewrite Ht. simpl.
    rewrite (try_body_decoded _ _ _ _ _ _ _ _ Hd Hsel), Hi. reflexivity.
Qed.

(** X1. [is_json] tells whether the input was decoded: in a returned
    document it is true exactly when the input is not empty and decoding
    it did not fail (a value that is not a string counts as decoded). *)
Theorem is_json_iff_decoded content r :
  parse_ai_response content = Ok r →
  is_json r = true ↔ py_truthy content = true ∧ ∃ parsed, decode content = Ok parsed.
Proof.
  intros Hr.
  destruct (parse_cases content)
    as [[Ht H]|[(Ht & Hd & H)|(Ht & parsed & st1 & Hd & _ & Hj & _ & _ & _ &_ & H)]].
  - rewrite H in Hr. injection Hr as <-. simpl. split; [done|].
    intros [? _]. congruence.
  - rewrite H in Hr. injection Hr as <-. simpl. split; [done|].
    intros [_ [parsed ?]]. congruence.
  - assert (is_json r = true) as ->; [|split; [intros _; eauto | done]].
    destruct H as [[_ H]|(items & _ & H)]; rewrite H in Hr.
    + by injection Hr as <-.
    + destruct (scan items).2 as [ex|];
        [destruct (caught ex); [|discriminate]|]; by injection Hr as <-.
Qed.

(** X2. When every entry is passed by the loop, [plain_text] is made of the
    processed elements in order: the [str] of the content if that is truthy,
    else a bracketed line with type and description if the description is
    truthy, else nothing; the pieces are joined by a blank line. *)
Theorem plain_text_joins_parts content parsed items :
  py_truthy content = true → decode content = Ok parsed →
  source_items parsed = Ok items →
  Forall (λ v, entry_ok v = true) items →
  ∃ r, parse_ai_response content = Ok r
    ∧ elements r = processed items
    ∧ plain_text r
      = String.concat (newline +:+ newline)
          (concat (text_part <$> processed items)).
Proof.
  intros Ht Hd Hs Hok.
  destruct (parse_decoded json_loads float_repr str_repr _ _ _ Ht Hd Hs)
    as (st & _ & _ & He & _ & _ & _ & ->).
  rewrite scan_ok by assumption. simpl.
  eexists. split; [reflexivity|]. simpl. by rewrite He.
Qed.

(** X3. When the elements source cannot be iterated (it is [None], a
    boolean or a number), the [TypeError] of the [for] statement is caught:
    the document has [is_json] true, no element in any sequence, and the
    [str] of the whole input as [plain_text]. *)
Theorem non_iterable_source_falls_back content parsed ex :
  py_truthy content = true → decode content = Ok parsed →
  source_items parsed = Raise ex →
  ∃ r, parse_ai_response content = Ok r
    ∧ is_json r = true ∧ elements r = [] ∧ tables r = []
    ∧ figures r = [] ∧ headers r = []
    ∧ plain_text r = py_str content.
Proof.
  intros Ht Hd Hs.
  destruct (parse_cases content)
    as [[Hf _]|[(_ & Hd' & _)|(_ & parsed' & st1 & Hd' & _ & Hj & He & Htb & Hf & Hh & H)]];
    [congruence..|].
  assert (parsed' = parsed) as -> by congruence.
  destruct H as [[_ ->]|(items & Hs' & _)]; [|congruence].
  eexists. split; [reflexivity|]. simpl. by repeat split.
Qed.

Lemma scan_no_mapping items :
  Forall (λ v, is_mapping v = false) items → scan items = ([], None).
Proof.
  induction 1 as [|v items Hv _ IH]; [reflexivity|].
  by destruct v.
Qed.

(** X4. An elements source that is a string or a mapping is iterated, over
    its characters or its keys, and no item is a mapping: the document has
    [is_json] true, no elements and an empty [plain_text], and nothing is
    raised.  The same holds for every source without a mapping among its
    items. *)
Theorem source_without_mapping_yields_nothing content parsed items :
  py_truthy content = true → decode content = Ok parsed →
  source_items parsed = Ok items →
  Forall (λ v, is_mapping v = false) items →
  ∃ r, parse_ai_response content = Ok r
    ∧ is_json r = true ∧ elements r = [] ∧ tables r = []
    ∧ figures r = [] ∧ headers r = []
    ∧ plain_text r = EmptyString.
Proof.
  intros Ht Hd Hs Hno.
  destruct (parse_decoded json_loads float_repr str_repr _ _ _ Ht Hd Hs)
    as (st & _ & Hj & He & Htb & Hf & Hh & ->).
  rewrite scan_no_mapping by assumption. simpl.
  eexists. split; [reflexivity|]. simpl.
  rewrite Hj, He, Htb, Hf, Hh. by repeat split.
Qed.

Lemma iter_str_or_dict_no_mapping src items :
  (∃ s, src = VStr s) ∨ (∃ d, src = VDict d) → py_iter src = Ok items →
  Forall (λ v, is_mapping v = false) items.
Proof.
  intros [[s ->]|[d ->]] [= <-]; apply Forall_forall; intros v Hv;
    apply list_elem_of_In, in_map_iff in Hv as (x & <- & _); reflexivity.
Qed.


Lemma category_partition (l : list element) :
  length l
  = (length (filter (in_category Table) l)
     + length (filter (in_category Figure) l)
     + length (filter (in_category Header) l)
     + length (filter (λ p, classify (type p) ∉ bucket_categories) l))%nat.
Proof.
  induction l as [|p l IH]; [reflexivity|].
  rewrite !filter_cons. unfold in_category, bucket_categories in *.
  repeat case_decide; simpl; try lia; exfalso; try congruence;
    match goal with
    | H : _ ∉ _ |- _ =>
        rewrite !not_elem_of_cons in H; destruct H as (? & ? & ? & _); congruence
    | H : _ ∈ _ |- _ =>
        rewrite !elem_of_cons in H;
        destruct H as [?|[?|[?|?%elem_of_nil]]]; done
    end.
Qed.

(** X6. In a returned document no element is in two of [tables],
    [figures] and [headers]: the sizes of the three and the number of
    elements of the other categories add up to the number of elements. *)
Theorem buckets_partition_elements content r :
  parse_ai_response content = Ok r →
  length (elements r)
  = (length (tables r) + length (figures r) + length (headers r)
     + length (filter (λ p, classify (type p) ∉ bucket_categories)
                      (elements r)))%nat.
Proof.
  intros Hr.
  apply (parse_frame json_loads float_repr str_repr) in Hr
    as [_ (items & -> & -> & -> & ->)].
  apply category_partition.
Qed.

End MoreProperties.

(** * The type breakdown *)

Lemma counts_get_set_eq k n d default :
  counts_get k (counts_set k n d) default = n.
Proof.
  induction d as [|[k' n'] d IH]; simpl.
  - by rewrite String.eqb_refl.
  - destruct (String.eqb k k') eqn:E; simpl; rewrite E; [done | exact IH].
Qed.

Lemma counts_get_set_ne k k' n d default :
  k ≠ k' → counts_get k' (counts_set k n d) default = counts_get k' d default.
Proof.
  intros Hne. induction d as [|[k0 n0] d IH]; simpl.
  - destruct (String.eqb k' k) eqn:E; [|done].
    apply String.eqb_eq in E. congruence.
  - destruct (String.eqb k k0) eqn:E; simpl; [|by rewrite IH].
    apply String.eqb_eq in E. subst k0.
    destruct (String.eqb k' k) eqn:E'; [|done].
    apply String.eqb_eq in E'. congruence.
Qed.

Lemma counts_get_absent k d default :
  k ∉ d.*1 → counts_get k d default = default.
Proof.
  induction d as [|[k' n'] d IH]; simpl; [done|].
  intros [Hne Hd]%not_elem_of_cons.
  destruct (String.eqb k k') eqn:E; [|by apply IH].
  apply String.eqb_eq in E. congruence.
Qed.

Lemma counts_set_keys k n d :
  (counts_set k n d).*1 = if decide (k ∈ d.*1) then d.*1 else d.*1 ++ [k].
Proof.
  induction d as [|[k' n'] d IH]; simpl.
  - reflexivity.
  - cbn [counts_set]. destruct (String.eqb k k') eqn:E; rewrite !fmap_cons; cbn [fst].
    + apply String.eqb_eq in E. subst. by rewrite decide_True by by left.
    + rewrite IH. apply String.eqb_neq in E.
      destruct (decide (k ∈ d.*1)) as [Hin|Hout].
      * by rewrite decide_True by by right.
      * rewrite decide_False; [done|].
        by intros [?|?]%elem_of_cons.
Qed.

Lemma counts_set_sum k n d :
  NoDup d.*1 →
  foldr Z.add 0 (counts_set k n d).*2 = foldr Z.add 0 d.*2 - counts_get k d 0 + n.
Proof.
  induction d as [|[k' n'] d IH]; intros Hnd; [simpl; lia|].
  rewrite fmap_cons in Hnd. apply NoDup_cons in Hnd as [Hk' Hnd].
  cbn [counts_set counts_get].
  destruct (String.eqb k k') eqn:E; rewrite !fmap_cons; cbn [snd foldr]; [lia|].
  rewrite IH by done. lia.
Qed.

Lemma type_counts_from acc elems :
  NoDup acc.*1 →
  NoDup (foldl count_elem acc elems).*1
  ∧ (∀ t, counts_get t (foldl count_elem acc elems) 0
          = counts_get t acc 0 + Z.of_nat (length (List.filter (of_type t) elems)))
  ∧ (∀ t, t ∈ (foldl count_elem acc elems).*1
          ↔ t ∈ acc.*1 ∨ ∃ e, e ∈ elems ∧ type e = t)
  ∧ foldr Z.add 0 (foldl count_elem acc elems).*2
    = foldr Z.add 0 acc.*2 + Z.of_nat (length elems).
Proof.
  revert acc. induction elems as [|e elems IH]; intros acc Hnd; simpl.
  - repeat split; try done; try lia.
    + by left.
    + intros [?|(e & He & _)]; [done|]. by apply elem_of_nil in He.
  - assert (Hnd' : NoDup (count_elem acc e).*1).
    { unfold count_elem. rewrite counts_set_keys. case_decide; [done|].
      apply NoDup_app. split; [done|]. split; [|apply NoDup_singleton].
      intros x Hx Hk%list_elem_of_singleton. by subst x. }
    destruct (IH _ Hnd') as (H1 & H2 & H3 & H4).
    split; [done|]. split; [|split].
    + intros t. rewrite H2. unfold count_elem, of_type at 2.
      destruct (String.eqb_spec (type e) t) as [->|Hne]; simpl.
      * rewrite counts_get_set_eq. lia.
      * by rewrite counts_get_set_ne.
    + intros t. rewrite H3. unfold count_elem. rewrite counts_set_keys.
      split.
      * intros [Hin|(e' & He' & Ht)].
        -- case_decide; [by left|].
           apply elem_of_app in Hin as [?|Hk%list_elem_of_singleton]; [by left|].
           right. exists e. split; [by left | done].
        -- right. exists e'. split; [by right | done].
      * intros [Hin|(e' & [->|He']%elem_of_cons & Ht)].
        -- left. case_decide; [done|]. apply elem_of_app. by left.
        -- left. subst t. case_decide; [done|].
           apply elem_of_app. right. by apply list_elem_of_singleton.
        -- right. by exists e'.
    + rewrite H4. unfold count_elem. rewrite counts_set_sum by done. lia.
Qed.

(** X7. The type breakdown counts exactly: each type that occurs is a key of
    [type_counts], once, with the number of elements of that type; no other
    key is there; and the counts add up to the number of elements. *)
Theorem type_counts_exact elems :
  NoDup (type_counts elems).*1
  ∧ (∀ t, t ∈ (type_counts elems).*1 ↔ ∃ e, e ∈ elems ∧ type e = t)
  ∧ (∀ t, counts_get t (type_counts elems) 0
          = Z.of_nat (length (List.filter (of_type t) elems)))
  ∧ foldr Z.add 0 (type_counts elems).*2 = Z.of_nat (length elems).
Proof.
  destruct (type_counts_from [] elems) as (H1 & H2 & H3 & H4); [constructor|].
  unfold type_counts. split; [done|]. split; [|split].
  - intros t. rewrite H3. split; [|by right].
    intros [Hin|?]; [by apply elem_of_nil in Hin | done].
  - intros t. by rewrite H2.
  - by rewrite H4.
Qed.

Section Sorted.

Context {A : Type} (key : A → Z).

Lemma insert_by_perm x l : insert_by key x l ≡ₚ x :: l.
Proof.
  induction l as [|y l IH]; simpl; [done|].
  destruct (key x <=? key y); [done|].
  rewrite IH. apply Permutation_swap.
Qed.

Lemma insert_by_sorted x l :
  StronglySorted (λ a b, key a ≤ key b) l →
  StronglySorted (λ a b, key a ≤ key b) (insert_by key x l).
Proof.
  induction 1 as [|y l Hl IH Hy]; simpl; [repeat constructor|].
  destruct (Z.leb_spec (key x) (key y)).
  - constructor; [by constructor|]. constructor; [done|].
    eapply Forall_impl; [exact Hy|]. simpl. intros. lia.
  - constructor; [exact IH|].
    rewrite insert_by_perm. constructor; [lia | exact Hy].
Qed.

Lemma insert_by_filter x l (c : Z) :
  StronglySorted (λ a b, key a ≤ key b) l →
  List.filter (λ a, key a =? c) (insert_by key x l)
  = List.filter (λ a, key a =? c) (x :: l).
Proof.
  induction 1 as [|y l Hl IH Hy]; [done|].
  simpl insert_by. destruct (Z.leb_spec (key x) (key y)); [done|].
  simpl in *. rewrite IH.
  destruct (Z.eqb_spec (key x) c) as [Hx|Hx]; [|done].
  destruct (Z.eqb_spec (key y) c) as [Hy'|Hy']; [lia | done].
Qed.

Lemma sorted_by_perm l : sorted_by key l ≡ₚ l.
Proof.
  induction l as [|x l IH]; simpl; [done|].
  by rewrite insert_by_perm, IH.
Qed.

Lemma sorted_by_sorted l :
  StronglySorted (λ a b, key a ≤ key b) (sorted_by key l).
Proof.
  induction l as [|x l IH]; simpl; [constructor | by apply insert_by_sorted].
Qed.

Lemma sorted_by_stable l c :
  List.filter (λ a, key a =? c) (sorted_by key l)
  = List.filter (λ a, key a =? c) l.
Proof.
  induction l as [|x l IH]; [done|].
  simpl sorted_by. rewrite insert_by_filter by apply sorted_by_sorted.
  simpl. by rewrite IH.
Qed.

End Sorted.

Lemma strongly_sorted_weaken {A} (R R' : A → A → Prop) l :
  (∀ a b, R a b → R' a b) → StronglySorted R l → StronglySorted R' l.
Proof.
  intros HR. induction 1 as [|x l Hl IH Hx]; constructor; [done|].
  eapply Forall_impl; [exact Hx | apply HR].
Qed.

Lemma type_counts_keys_from acc elems :
  (foldl count_elem acc elems).*1
  = foldl (λ seen t, if decide (t ∈ seen) then seen else seen ++ [t])
          acc.*1 (type <$> elems).
Proof.
  revert acc. induction elems as [|e elems IH]; intros acc; [done|].
  rewrite fmap_cons. cbn [foldl]. rewrite IH. f_equal.
  unfold count_elem. apply counts_set_keys.
Qed.

(** X8. The breakdown shows every entry of [type_counts] once, the larger
    counts first, and the types with the same count in the order in which
    the elements first show them. *)
Theorem type_breakdown_order elems :
  type_breakdown elems ≡ₚ type_counts elems
  ∧ StronglySorted (λ a b, b.2 ≤ a.2) (type_breakdown elems)
  ∧ (∀ n, List.filter (λ x, x.2 =? n) (type_breakdown elems)
          = List.filter (λ x, x.2 =? n) (type_counts elems))
  ∧ (type_counts elems).*1 = first_seen (type <$> elems).
Proof.
  unfold type_breakdown. split; [apply sorted_by_perm|].
  split; [|split; [|apply (type_counts_keys_from [])]].
  - eapply strongly_sorted_weaken; [|apply sorted_by_sorted].
    simpl. intros. lia.
  - intros n.
    pose proof (sorted_by_stable (λ x : string * Z, - x.2) (type_counts elems) (- n))
      as H.
    assert (Hext : ∀ x : string * Z, (x.2 =? n) = (- x.2 =? - n)).
    { intros x. destruct (Z.eqb_spec x.2 n), (Z.eqb_spec (- x.2) (- n)); lia || done. }
    rewrite !(filter_ext _ _ Hext). exact H.
Qed.

(** * Rendering *)

Section RenderProperties.

Variable json_loads : string → option value.
Variable float_repr : spec_float → string.
Variable str_repr : string → string.

Local Abbreviation py_str := (py_str float_repr str_repr).
Local Abbreviation page_info_of := (page_info_of float_repr str_repr).
Local Abbreviation render_element_content :=
  (render_element_content float_repr str_repr).
Local Abbreviation parse_ai_response :=
  (parse_ai_response json_loads float_repr str_repr).

Lemma page_info_of_ok v :
  v = VNone ∨ addable v = true → ∃ info, page_info_of v = Ok info.
Proof. intros H; destruct v; destruct H as [H|H]; try discriminate; by eexists. Qed.

Lemma page_info_of_raise v :
  v ≠ VNone → addable v = false → page_info_of v = Raise TypeError.
Proof. intros Hn H. by destruct v. Qed.



(** X12. The renderer lowers the type again and dispatches on its own copy
    of the lists of types; on the documents of the normaliser this agrees
    with the buckets: the type of every element is already in lower case,
    and what is drawn for an element of [tables], [figures] or [headers]
    begins with the heading of a table, a figure or a header. *)
Theorem buckets_render_with_their_heading input r :
  parse_ai_response input = Ok r →
  Forall (λ p, lower (type p) = type p) (elements r)
  ∧ (∀ p ws, p ∈ tables r → render_element_content p = Ok ws →
       ∃ info rest, page_info_of (page_id p) = Ok info
         ∧ ws = StMarkdown (VStr (table_heading info)) false :: rest)
  ∧ (∀ p ws, p ∈ figures r → render_element_content p = Ok ws →
       ∃ info rest, page_info_of (page_id p) = Ok info
         ∧ ws = StMarkdown (VStr (figure_heading info)) false :: rest)
  ∧ (∀ p ws, p ∈ headers r → render_element_content p = Ok ws →
       ∃ info rest, page_info_of (page_id p) = Ok info
         ∧ ws = StMarkdown
                  (VStr (header_heading (py_str (content p)) info))
                  false :: rest).
Proof.
  intros Hr.
  apply (parse_frame json_loads float_repr str_repr) in Hr
    as [_ (items & -> & -> & -> & ->)].
  assert (Hlow : Forall (λ p, lower (type p) = type p) (scan items).1).
  { eapply Forall_impl; [apply scan_elements|].
    intros p (e & _ & _ & ->). simpl. apply lower_idempotent. }
  split; [exact Hlow|].
  rewrite Forall_forall in Hlow.
  repeat split; intros p ws [Hc Hin]%list_elem_of_filter Hw;
    unfold in_category in Hc;
    unfold render_element_content, mbind, outcome_bind in Hw;
    rewrite (Hlow p Hin), Hc in Hw;
    destruct (page_info_of (page_id p)) as [info|]; [|discriminate| |discriminate| |discriminate];
    injection Hw as <-; by eexists _, _.
Qed.

End RenderProperties.

(** * The page grouping loses nothing *)

Lemma filter_on_page_skip z e elems :
  on_page z e = false →
  List.filter (on_page z) (e :: elems) = List.filter (on_page z) elems.
Proof. intros H. simpl. by rewrite H. Qed.

Lemma buckets_cons_absent (zs : list Z) e elems :
  (∀ z, z ∈ zs → on_page z e = false) →
  concat ((λ z, List.filter (on_page z) (e :: elems)) <$> zs)
  = concat ((λ z, List.filter (on_page z) elems) <$> zs).
Proof.
  induction zs as [|z zs IH]; intros H; [done|].
  rewrite !fmap_cons. cbn [concat].
  rewrite filter_on_page_skip by (apply H; by left).
  rewrite IH; [done|]. intros z' Hz'. apply H. by right.
Qed.

Lemma buckets_cons_present (zs : list Z) e z0 elems :
  page_id e = VInt z0 → NoDup zs → z0 ∈ zs →
  concat ((λ z, List.filter (on_page z) (e :: elems)) <$> zs)
  ≡ₚ e :: concat ((λ z, List.filter (on_page z) elems) <$> zs).
Proof.
  intros Hp. induction zs as [|z zs IH]; intros Hnd Hin.
  { by apply elem_of_nil in Hin. }
  apply NoDup_cons in Hnd as [Hz Hnd].
  rewrite !fmap_cons. cbn [concat].
  destruct (decide (z = z0)) as [->|Hne].
  - rewrite buckets_cons_absent.
    + simpl. unfold on_page at 1. rewrite Hp, Z.eqb_refl. done.
    + intros z Hz'. unfold on_page. rewrite Hp.
      apply Z.eqb_neq. intros ->. done.
  - rewrite filter_on_page_skip.
    + rewrite IH; [|done|]. 
      * by rewrite Permutation_middle.
      * apply elem_of_cons in Hin as [?|?]; [congruence | done].
    + unfold on_page. rewrite Hp. by apply Z.eqb_neq.
Qed.

Lemma buckets_perm (zs : list Z) elems :
  Forall (λ e, page_typed e = true) elems → NoDup zs →
  (∀ e z, e ∈ elems → page_id e = VInt z → z ∈ zs) →
  concat ((λ z, List.filter (on_page z) elems) <$> zs)
    ++ List.filter without_page elems ≡ₚ elems.
Proof.
  intros Ht Hnd. induction Ht as [|e elems He _ IH]; intros Hall.
  - assert (concat ((λ z, List.filter (on_page z) []) <$> zs) = []) as ->; [|done].
    clear. induction zs as [|z zs IH]; [done|]. rewrite fmap_cons. by simpl.
  - assert (IH' := IH (λ e' z He' Hp, Hall e' z (list_elem_of_further _ _ _ He') Hp)).
    unfold page_typed in He.
    destruct (page_id e) as [| |z0| | | |] eqn:Hp; try discriminate.
    + rewrite buckets_cons_absent.
      * simpl. unfold without_page at 1. rewrite Hp.
        by rewrite <- Permutation_middle, IH'.
      * intros z _. unfold on_page. by rewrite Hp.
    + rewrite buckets_cons_present with (z0 := z0); [|done..|].
      * simpl. unfold without_page at 1. rewrite Hp. by rewrite IH'.
      * apply (Hall e); [by left | done].
Qed.

(** X9. The page grouping neither loses nor repeats an element: for
    elements whose page id is [None] or an integer, the buckets of all
    pages together with the elements without a page hold each element of
    the list exactly once. *)
Theorem grouping_is_a_partition elems :
  Forall (λ e, page_typed e = true) elems →
  ∃ g, group_by_page elems = Some g ∧ grouped_elements g ≡ₚ elems.
Proof.
  intros Htyped.
  destruct (group_from_spec elems (Grouping ∅ []) Htyped) as (g & Hg & Hno & Hby).
  exists g. split; [exact Hg|].
  assert (Hlookup : ∀ z, elements_by_page g !! z
            = match List.filter (on_page z) elems with
              | [] => None
              | bucket => Some bucket
              end).
  { intros z. rewrite Hby. simpl. rewrite lookup_empty.
    by destruct (List.filter (on_page z) elems). }
  assert (Hin : ∀ z, z ∈ page_ids g ↔ List.filter (on_page z) elems ≠ []).
  { intros z. unfold page_ids. rewrite merge_sort_Permutation, list_elem_of_fmap.
    split.
    - intros ([z' l] & -> & Hl). apply elem_of_map_to_list in Hl.
      simpl in *. rewrite Hlookup in Hl.
      by destruct (List.filter (on_page z') elems).
    - intros Hne. specialize (Hlookup z).
      destruct (List.filter (on_page z) elems) as [|e l]; [done|].
      exists (z, e :: l). split; [done|]. by apply elem_of_map_to_list. }
  assert (Hbuckets : ∀ zs : list Z, (∀ z, z ∈ zs → z ∈ page_ids g) →
    omap (λ page, elements_by_page g !! page) zs
    = (λ z, List.filter (on_page z) elems) <$> zs).
  { induction zs as [|z zs IH]; intros Hzs; [done|].
    rewrite fmap_cons. cbn [omap list_omap]. rewrite Hlookup.
    assert (Hz : List.filter (on_page z) elems ≠ []) by (apply Hin, Hzs; by left).
    destruct (List.filter (on_page z) elems) as [|e l]; [done|].
    rewrite IH; [done|]. intros z' Hz'. apply Hzs. by right. }
  unfold grouped_elements. rewrite Hbuckets by done. rewrite Hno. simpl.
  apply buckets_perm; [done| |].
  - unfold page_ids. rewrite merge_sort_Permutation.
    apply NoDup_fst_map_to_list.
  - intros e z He Hp. apply Hin, filter_on_page_nonempty. by exists e.
Qed.

(** * The warehouse id *)


Lemma all_space_cons c s :
  all_space (String c s) ↔ is_space c = true ∧ all_space s.
Proof. unfold all_space. simpl. apply (Forall_cons (λ c, is_space c = true)). Qed.






Lemma all_space_app s t : all_space s → all_space t → all_space (s +:+ t).
Proof.
  intros Hs Ht. induction s as [|c s IH]; [done|].
  apply all_space_cons in Hs as [Hc Hs]. simpl.
  apply all_space_cons. split; [done | by apply IH].
Qed.


(** * The configuration check *)

(** X14. [check_config] of run.py returns what [Config.is_configured]
    returns: true exactly when the host and the token are both truthy, that
    is, set and not empty.  The default warehouse has no part in it, and the
    hint on the credentials is printed exactly when the result is false. *)
Theorem check_config_is_configured host token warehouse :
  (check_config host token warehouse).1 = is_configured host token
  ∧ (is_configured host token = true
     ↔ py_truthy host = true ∧ py_truthy token = true)
  ∧ (∃ report, length report = 4%nat
       ∧ (check_config host token warehouse).2
         = report ++ (if is_configured host token then [] else credentials_hint)).
Proof.
  unfold check_config, is_configured, py_and, get_config_status. simpl.
  destruct (py_truthy host) eqn:Hh; destruct (py_truthy token) eqn:Ht; simpl;
    rewrite ?Hh, ?Ht; simpl;
    (split; [reflexivity|]; split; [intuition congruence|]);
    eexists [_; _; _; _]; (split; [reflexivity|]); reflexivity.
Qed.

(** * The keys of the uploaded files *)

Lemma key_char_spec c :
  (if Ascii.eqb (if Ascii.eqb c "." then "_" else c) " " then "_"
   else if Ascii.eqb c "." then "_" else c)%char
  = if key_separator c then "_"%char else c.
Proof.
  unfold key_separator.
  destruct (Ascii.eqb_spec c "."), (Ascii.eqb_spec c " "),
    (Ascii.eqb_spec c "_"); subst; try done.
Qed.

Lemma file_key_cons c s :
  file_key (String c s)
  = String (if key_separator c then "_"%char else c) (file_key s).
Proof. unfold file_key. simpl. by rewrite key_char_spec. Qed.

Lemma key_char_eq a b :
  (if key_separator a then "_"%char else a)
  = (if key_separator b then "_"%char else b)
  ↔ a = b ∨ (key_separator a = true ∧ key_separator b = true).
Proof.
  destruct (key_separator a) eqn:Ha, (key_separator b) eqn:Hb.
  - split; [intros _; by right | done].
  - split; [intros <-; discriminate | intros [->|[_ ?]]; congruence].
  - split; [intros ->; discriminate | intros [->|[? _]]; congruence].
  - split; [by left | intros [?|[? _]]; done].
Qed.

(** X15. The key of an uploaded file has the length of the name and holds
    neither a dot nor a space, and two names have the same key exactly when
    they have the same length and differ only where both have a dot, a
    space or an underscore.  Such names share their widgets and their
    parsed result. *)
Theorem file_key_collisions name1 name2 :
  (file_key name1 = file_key name2
   ↔ Forall2 (λ a b, a = b ∨ (key_separator a = true ∧ key_separator b = true))
             (list_ascii_of_string name1) (list_ascii_of_string name2))
  ∧ String.length (file_key name1) = String.length name1
  ∧ Forall (λ c, c ≠ "."%char ∧ c ≠ " "%char)
           (list_ascii_of_string (file_key name1)).
Proof.
  split; [|split].
  - revert name2. induction name1 as [|a s IH]; intros [|b t].
    + split; [constructor | done].
    + split; [by rewrite file_key_cons | by inversion 1].
    + split; [by rewrite file_key_cons | by inversion 1].
    + rewrite !file_key_cons. simpl. split.
      * intros [= Hc Hk]. constructor; [by apply key_char_eq | by apply IH].
      * inversion 1 as [|? ? ? ? Hc Hk]; subst.
        apply key_char_eq in Hc. apply IH in Hk. by rewrite Hc, Hk.
  - induction name1 as [|a s IH]; [done|].
    rewrite file_key_cons. simpl. by rewrite IH.
  - induction name1 as [|a s IH]; [constructor|].
    rewrite file_key_cons. simpl. constructor; [|exact IH].
    unfold key_separator.
    destruct (Ascii.eqb_spec a "."), (Ascii.eqb_spec a " "); simpl; try done.
    destruct (Ascii.eqb_spec a "_"); done.
Qed.

Example file_key_collision_example :
  file_key "a.b.pdf" = file_key "a b.pdf" ∧ file_key "a.b.pdf" = "a_b_pdf".
Proof. split; reflexivity. Qed.

(** * The statements *)

(** X16. What the agent query tab shows is what it runs: when the four
    fields are filled in and a warehouse is set, the statement handed to
    [execute_statement] is the previewed text, on that warehouse; with an
    empty field nothing is previewed, and without a warehouse nothing is
    submitted. *)
Theorem previewed_query_is_submitted warehouse_id table_name input_column
    prompt output_column :
  (∀ q, previewed table_name input_column prompt output_column = Some q →
        py_truthy warehouse_id = true →
        submitted warehouse_id table_name input_column prompt output_column
        = Some (warehouse_id, q))
  ∧ (previewed table_name input_column prompt output_column = None
     ↔ table_name = EmptyString ∨ input_column = EmptyString
       ∨ output_column = EmptyString ∨ prompt = EmptyString)
  ∧ (py_truthy warehouse_id = false →
     submitted warehouse_id table_name input_column prompt output_column = None).
Proof.
  unfold previewed, submitted. simpl. split; [|split].
  - intros q Hq ->. simpl.
    destruct (_ && _); [|discriminate]. by injection Hq as <-.
  - destruct (String.eqb_spec table_name EmptyString),
      (String.eqb_spec input_column EmptyString),
      (String.eqb_spec output_column EmptyString),
      (String.eqb_spec prompt EmptyString); simpl;
      (split; [intros; try discriminate; auto | intros; try done; intuition]).
  - by intros ->.
Qed.

(** * The parsed document and what is kept of it *)

Lemma py_item_0 {A} (x : A) (l : list A) : py_item (x :: l) 0 = Ok x.
Proof. reflexivity. Qed.

(** X17. The indexing of lines 472-473 is guarded: whatever the response,
    the lines after the call raise nothing.  With no result, no data array
    or no row the function returns [None]; otherwise the path is the first
    cell of the first row, or the path given if that row is empty, and the
    parsed content is its second cell, or [None] if the row has fewer than
    two.  An error is shown only when the call itself raised. *)
Theorem first_row_guarded response dbfs_path :
  first_row response dbfs_path
  = Ok match response_result response with
       | Some (ResultData (Some (row :: _))) =>
           Some {| path := default (VStr dbfs_path) (row !! 0%nat);
                   parsed_content := default VNone (row !! 1%nat) |}
       | _ => None
       end.
Proof.
  unfold first_row.
  destruct (response_result response) as [[[[|row rows]|]]|]; try reflexivity.
  simpl. destruct row as [|c0 [|c1 row]]; reflexivity.
Qed.

(** X18. What the parser tab keeps of a parsed document, and later hands
    to the display, is the second cell of the first row of the response,
    and only if that cell is truthy: a cell that is a string is kept only
    if it is not empty.  The statement was run on the warehouse id of
    [get_warehouse_id], with the timeout of 30 seconds, and reads the file
    at the path given. *)
Theorem kept_content_is_second_cell
    (execute_statement : value → string → string → string + statement_response)
    session_warehouse_id DEFAULT_WAREHOUSE_ID dbfs_path v :
  kept_content
    (parse_document_with_ai execute_statement session_warehouse_id
       DEFAULT_WAREHOUSE_ID dbfs_path).1 = Some v →
  py_truthy v = true
  ∧ (∀ s, v = VStr s → s ≠ EmptyString)
  ∧ ∃ row rows,
      execute_statement
        (get_warehouse_id session_warehouse_id DEFAULT_WAREHOUSE_ID)
        (parse_sql_query dbfs_path) "30s"
      = inr (StatementResponse (Some (ResultData (Some (row :: rows)))))
      ∧ row !! 1%nat = Some v.
Proof.
  unfold parse_document_with_ai.
  destruct (execute_statement _ _ _) as [msg|[res]]; [discriminate|].
  rewrite first_row_guarded. simpl.
  destruct res as [[[[|row rows]|]]|]; try discriminate.
  simpl. destruct (py_truthy (default VNone (row !! 1%nat))) eqn:Ht; [|discriminate].
  intros [= <-]. split; [exact Ht|]. split.
  - intros s Hs. rewrite Hs in Ht. simpl in Ht. intros ->. discriminate.
  - exists row, rows. split; [reflexivity|].
    destruct (row !! 1%nat); [done | discriminate].
Qed.

(** An error is shown by [parse_document_with_ai] only when the call itself
    raised. *)
Lemma parse_document_error_only_from_call
    (execute_statement : value → string → string → string + statement_response)
    session_warehouse_id DEFAULT_WAREHOUSE_ID dbfs_path failure :
  failure ∈ (parse_document_with_ai execute_statement session_warehouse_id
               DEFAULT_WAREHOUSE_ID dbfs_path).2 →
  ∃ message, failure = CallFailed message
    ∧ execute_statement
        (get_warehouse_id session_warehouse_id DEFAULT_WAREHOUSE_ID)
        (parse_sql_query dbfs_path) "30s" = inl message.
Proof.
  unfold parse_document_with_ai.
  destruct (execute_statement _ _ _) as [msg|res].
  - intros ->%list_elem_of_singleton. by exists msg.
  - rewrite first_row_guarded. simpl. by intros ?%elem_of_nil.
Qed.

(** * Instances of the further properties *)

Example decoded_mixed : Json.loads text_mixed = Some (VList payload_mixed).
Proof. vm_compute. reflexivity. Qed.

Lemma is_json_iff_decoded_witness :
  ∃ r, run text_mixed = Ok r
     ∧ (is_json r = true
        ↔ py_truthy (VStr text_mixed) = true
          ∧ ∃ parsed, decode Json.loads (VStr text_mixed) = Ok parsed).
Proof.
  eexists. split; [vm_compute; reflexivity|].
  refine (is_json_iff_decoded Json.loads Json.no_float_repr Json.plain_str_repr
            (VStr text_mixed) _ _).
  vm_compute. reflexivity.
Defined.

Lemma plain_text_joins_parts_witness :
  py_truthy (VStr text_mixed) = true
  ∧ decode Json.loads (VStr text_mixed) = Ok (VList payload_mixed)
  ∧ Forall (λ v, entry_ok v = true) payload_mixed
  ∧ ∃ r, run text_mixed = Ok r
       ∧ elements r = processed payload_mixed
       ∧ plain_text r
         = String.concat (newline +:+ newline)
             (concat (text_part Json.no_float_repr Json.plain_str_repr
                        <$> processed payload_mixed)).
Proof.
  assert (H1 : py_truthy (VStr text_mixed) = true) by (vm_compute; reflexivity).
  assert (H2 : decode Json.loads (VStr text_mixed) = Ok (VList payload_mixed))
    by (vm_compute; reflexivity).
  assert (H3 : Forall (λ v, entry_ok v = true) payload_mixed)
    by (repeat constructor).
  repeat (split; [assumption|]).
  refine (plain_text_joins_parts Json.loads Json.no_float_repr
            Json.plain_str_repr (VStr text_mixed) _ payload_mixed H1 H2 _ H3).
  reflexivity.
Defined.

Lemma non_iterable_source_falls_back_witness :
  py_truthy (VStr text_elements_number) = true
  ∧ decode Json.loads (VStr text_elements_number)
    = Ok (VDict [("elements", VInt 5); ("pages", VInt 2)])
  ∧ source_items Json.no_float_repr Json.plain_str_repr
      (VDict [("elements", VInt 5); ("pages", VInt 2)]) = Raise TypeError
  ∧ ∃ r, run text_elements_number = Ok r
       ∧ is_json r = true ∧ elements r = [] ∧ tables r = []
       ∧ figures r = [] ∧ headers r = []
       ∧ plain_text r = text_elements_number.
Proof.
  assert (H1 : py_truthy (VStr text_elements_number) = true)
    by (vm_compute; reflexivity).
  assert (H2 : decode Json.loads (VStr text_elements_number)
    = Ok (VDict [("elements", VInt 5); ("pages", VInt 2)]))
    by (vm_compute; reflexivity).
  assert (H3 : source_items Json.no_float_repr Json.plain_str_repr
      (VDict [("elements", VInt 5); ("pages", VInt 2)]) = Raise TypeError)
    by reflexivity.
  repeat (split; [assumption|]).
  exact (non_iterable_source_falls_back Json.loads Json.no_float_repr
           Json.plain_str_repr (VStr text_elements_number) _ _ H1 H2 H3).
Defined.

Lemma source_without_mapping_yields_nothing_witness :
  py_truthy (VStr text_elements_string) = true
  ∧ decode Json.loads (VStr text_elements_string)
    = Ok (VDict [("elements", VStr "abc")])
  ∧ source_items Json.no_float_repr Json.plain_str_repr
      (VDict [("elements", VStr "abc")])
    = Ok [VStr "a"; VStr "b"; VStr "c"]
  ∧ Forall (λ v, is_mapping v = false) [VStr "a"; VStr "b"; VStr "c"]
  ∧ ∃ r, run text_elements_string = Ok r
       ∧ is_json r = true ∧ elements r = [] ∧ tables r = []
       ∧ figures r = [] ∧ headers r = []
       ∧ plain_text r = EmptyString.
Proof.
  assert (H1 : py_truthy (VStr text_elements_string) = true)
    by (vm_compute; reflexivity).
  assert (H2 : decode Json.loads (VStr text_elements_string)
    = Ok (VDict [("elements", VStr "abc")])) by (vm_compute; reflexivity).
  assert (H3 : source_items Json.no_float_repr Json.plain_str_repr
      (VDict [("elements", VStr "abc")]) = Ok [VStr "a"; VStr "b"; VStr "c"])
    by reflexivity.
  assert (H4 : Forall (λ v, is_mapping v = false) [VStr "a"; VStr "b"; VStr "c"])
    by (repeat constructor).
  repeat (split; [assumption|]).
  exact (source_without_mapping_yields_nothing Json.loads Json.no_float_repr
           Json.plain_str_repr (VStr text_elements_string) _ _ H1 H2 H3 H4).
Defined.

Example run_mixed :
  ∃ r, run text_mixed = Ok r ∧ elements r = processed payload_mixed.
Proof. eexists. split; [vm_compute; reflexivity | reflexivity]. Qed.

Lemma buckets_partition_elements_witness :
  ∃ r, run text_mixed = Ok r
     ∧ length (elements r) = 4%nat ∧ length (tables r) = 0%nat
     ∧ length (figures r) = 1%nat ∧ length (headers r) = 1%nat
     ∧ length (elements r)
       = (length (tables r) + length (figures r) + length (headers r)
          + length (filter (λ p, classify (type p) ∉ bucket_categories)
                           (elements r)))%nat.
Proof.
  eexists. split; [vm_compute; reflexivity|].
  repeat (split; [reflexivity|]).
  refine (buckets_partition_elements Json.loads Json.no_float_repr
            Json.plain_str_repr (VStr text_mixed) _ _).
  vm_compute. reflexivity.
Defined.

Lemma grouping_is_a_partition_witness :
  Forall (λ e, page_typed e = true) sample_elements
  ∧ ∃ g, group_by_page sample_elements = Some g
       ∧ grouped_elements g ≡ₚ sample_elements.
Proof.
  assert (H : Forall (λ e, page_typed e = true) sample_elements)
    by (repeat constructor).
  split; [exact H | exact (grouping_is_a_partition sample_elements H)].
Defined.

Example sample_grouped_elements :
  grouped_elements <$> group_by_page sample_elements
  = Some [elem_on (VInt 0) "c"; elem_on (VInt 2) "a"; elem_on (VInt 2) "d";
          elem_on VNone "b"; elem_on VNone "e"].
Proof. vm_compute. reflexivity. Qed.

Lemma buckets_render_with_their_heading_witness :
  ∃ r, run text_mixed = Ok r
     ∧ Forall (λ p, lower (type p) = type p) (elements r).
Proof.
  eexists. split; [vm_compute; reflexivity|].
  refine (proj1 (buckets_render_with_their_heading Json.loads
                   Json.no_float_repr Json.plain_str_repr
                   (VStr text_mixed) _ _)).
  vm_compute. reflexivity.
Defined.

Lemma kept_content_is_second_cell_witness :
  kept_content
    (parse_document_with_ai sample_execute None VNone "/tmp/document_parser/a.pdf").1
  = Some (VStr text_paragraph)
  ∧ py_truthy (VStr text_paragraph) = true
  ∧ (∀ s, VStr text_paragraph = VStr s → s ≠ EmptyString).
Proof.
  assert (H : kept_content
    (parse_document_with_ai sample_execute None VNone
       "/tmp/document_parser/a.pdf").1 = Some (VStr text_paragraph))
    by reflexivity.
  split; [exact H|].
  destruct (kept_content_is_second_cell sample_execute None VNone
              "/tmp/document_parser/a.pdf" _ H) as (H1 & H2 & _).
  exact (conj H1 H2).
Defined.

(** A page id that is a string goes through the normaliser and stops the
    renderer. *)
Example string_page_id_cannot_be_rendered :
  render_element_content Json.no_float_repr Json.plain_str_repr
    (elem_on (VStr "1") "x") = Raise TypeError
  ∧ render_element_content Json.no_float_repr Json.plain_str_repr
      (elem_on (VInt 1) "x")
    = Ok [StMarkdown (VStr "x") false].
Proof. split; reflexivity. Qed.

Example type_breakdown_example :
  type_breakdown
    [elem_on VNone "a"; normalized entry_table; elem_on VNone "b";
     normalized [("type", VStr "title")]; normalized entry_table;
     normalized entry_table]
  = [("table", 3); ("text", 2); ("title", 1)].
Proof. vm_compute. reflexivity. Qed.

Example warehouse_id_examples :
  get_warehouse_id (Some "  abc 12  ") (VStr "default") = VStr "abc 12"
  ∧ get_warehouse_id (Some "   ") (VStr "default") = VStr "default"
  ∧ get_warehouse_id None VNone = VNone.
Proof. repeat split; reflexivity. Qed.

(** * Text shown for a mapping without elements *)

(** X19. For a decoded mapping that takes the [content] branch, the
    [text] branch or the last branch, the document has no plain text, so
    the Plain Text tab and the text download fall back on the raw input:
    for [{"content": "hello"}] they show the JSON text, not [hello]. *)
Theorem mapping_without_elements_downloads_raw
    (json_loads : string → option value) float_repr str_repr input p r :
  py_truthy input = true → decode json_loads input = Ok (VDict p) →
  spec_shape p = ContentOnly ∨ spec_shape p = TextOnly ∨ spec_shape p = Opaque →
  parse_ai_response json_loads float_repr str_repr input = Ok r →
  plain_text r = EmptyString
  ∧ download_text_data r = input
  ∧ download_json_data r = input.
Proof.
  intros Ht Hd Hshape Hr.
  unfold parse_ai_response in Hr. rewrite Ht in Hr. simpl in Hr.
  rewrite (try_body_decoded _ _ _ _ _ _ _ _ Hd (select_structure_dict _ _ _ _))
    in Hr.
  unfold spec_elements_source in Hr.
  destruct Hshape as [E|[E|E]]; rewrite E in Hr; simpl in Hr;
    injection Hr as <-; by repeat split.
Qed.

Lemma mapping_without_elements_downloads_raw_witness :
  py_truthy (VStr text_content_hello) = true
  ∧ decode Json.loads (VStr text_content_hello)
    = Ok (VDict [("content", VStr "hello")])
  ∧ spec_shape [("content", VStr "hello")] = ContentOnly
  ∧ ∃ r, run text_content_hello = Ok r
       ∧ plain_text r = EmptyString
       ∧ download_text_data r = VStr text_content_hello
       ∧ download_json_data r = VStr text_content_hello.
Proof.
  assert (H1 : py_truthy (VStr text_content_hello) = true)
    by (vm_compute; reflexivity).
  assert (H2 : decode Json.loads (VStr text_content_hello)
    = Ok (VDict [("content", VStr "hello")])) by (vm_compute; reflexivity).
  assert (H3 : spec_shape [("content", VStr "hello")] = ContentOnly)
    by reflexivity.
  repeat (split; [assumption|]).
  eexists. split; [vm_compute; reflexivity|].
  refine (mapping_without_elements_downloads_raw Json.loads Json.no_float_repr
            Json.plain_str_repr (VStr text_content_hello) _ _ H1 H2 (or_introl H3) _).
  vm_compute. reflexivity.
Defined.

(** * The results kept in the session *)



Example colliding_names_share_the_result :
  displayed_content Json.no_float_repr Json.plain_str_repr "a b.pdf"
    (store_result "a.b.pdf"
       (Some {| path := VStr "p"; parsed_content := VStr "text of a.b.pdf" |}) ∅)
  = Some "text of a.b.pdf".
Proof. vm_compute. reflexivity. Qed.

(** The normaliser hands on a page id that is a string, and the renderer
    cannot draw the element. *)
Example string_page_id_parsed_but_not_rendered :
  ∃ r p, run text_string_page_id = Ok r ∧ elements r = [p]
    ∧ page_id p = VStr "1"
    ∧ render_element_content Json.no_float_repr Json.plain_str_repr p
      = Raise TypeError.
Proof.
  eexists _, _. split; [vm_compute; reflexivity|].
  split; [reflexivity|]. split; reflexivity.
Qed.
